(** * Golpyre Banking: the ledger and loan engine of [src/bot.js]

    A shallow embedding of the bank bot's core.  The JavaScript built-ins the
    code relies on are modelled first (strings, numbers, dynamically typed
    values, objects used as maps, arrays), then the in-memory store
    [bankData] and the functions of [src/bot.js] that read and write it, in
    the order of the source.

    Conventions of the embedding.
    - A JavaScript string is a [string] of ASCII characters; [trim] strips the
      ASCII white space and line terminators, [toLowerCase] folds [A-Z].
    - A finite JavaScript number is the rational it denotes ([Fin q]); the
      amounts and balances the commands compute are integers ([Z]), exact as
      long as they stay within the safe-integer range of a double.
    - An object used as a map is an association list in insertion order
      ([obj]); property keys inherited from [Object.prototype] and the
      reordering of integer-like keys are outside the model.
    - The store and the data file hold records of the shapes the program
      writes: integer balances, log entries, loan records with the six
      properties [loanCommand] gives them.
    - [new Date()], [Date.now()], [Math.random()] and the outcome of
      [message.channel.send] are inputs of a command, gathered in [Env]. *)

From Stdlib Require Import ZArith QArith Qround Bool List Ascii String Lia.
From Stdlib Require Import Sorted Permutation.
From Stdlib Require Import DecimalString.
Import ListNotations.

Local Open Scope string_scope.
Local Open Scope Z_scope.
Local Open Scope list_scope.

(** ** JavaScript strings *)

Module JsString.

(** WhiteSpace and LineTerminator code points below 128. *)
Definition is_white (c : ascii) : bool :=
  let n := nat_of_ascii c in
  ((n =? 9) || (n =? 10) || (n =? 11) || (n =? 12) || (n =? 13) || (n =? 32))%nat.

Fixpoint trimStart (s : string) : string :=
  match s with
  | EmptyString => EmptyString
  | String c r => if is_white c then trimStart r else s
  end.

Fixpoint trimEnd (s : string) : string :=
  match s with
  | EmptyString => EmptyString
  | String c r =>
      match trimEnd r with
      | EmptyString => if is_white c then EmptyString else String c EmptyString
      | r' => String c r'
      end
  end.

Definition trim (s : string) : string := trimEnd (trimStart s).

Definition lower (c : ascii) : ascii :=
  let n := nat_of_ascii c in
  if ((65 <=? n) && (n <=? 90))%nat then ascii_of_nat (n + 32) else c.

Fixpoint toLowerCase (s : string) : string :=
  match s with
  | EmptyString => EmptyString
  | String c r => String (lower c) (toLowerCase r)
  end.

(** [s.substring(0, n)] for [0 <= n]. *)
Definition substring0 (n : nat) (s : string) : string := String.substring 0 n s.

(** [parts.join(sep)]. *)
Definition join (sep : string) (parts : list string) : string :=
  String.concat sep parts.

(** Decimal rendering of an integer, as [String(n)] gives for a safe integer. *)
Definition ofZ (z : Z) : string := NilZero.string_of_int (Z.to_int z).

End JsString.

(** ** JavaScript numbers *)

Inductive jsnum : Type :=
| NaN
| PosInf
| NegInf
| Fin (q : Q).

Module JsNumber.

Definition isFinite (n : jsnum) : bool :=
  match n with Fin _ => true | _ => false end.

(** [n > 0]; every comparison with [NaN] is false. *)
Definition gt0 (n : jsnum) : bool :=
  match n with
  | Fin q => negb (Qle_bool q 0)
  | PosInf => true
  | _ => false
  end.

(** [n <= 0]. *)
Definition le0 (n : jsnum) : bool :=
  match n with
  | Fin q => Qle_bool q 0
  | NegInf => true
  | _ => false
  end.

(** [n <= k] for an integer literal [k]. *)
Definition leZ (n : jsnum) (k : Z) : bool :=
  match n with
  | Fin q => Qle_bool q (inject_Z k)
  | NegInf => true
  | _ => false
  end.

(** [Math.floor(n)] of a finite number; the commands only floor numbers they
    have checked to be finite. *)
Definition floor (n : jsnum) : Z :=
  match n with
  | Fin q => Qfloor q
  | _ => 0
  end.

(** *** [Number(string)]: the StringNumericLiteral grammar *)

Definition digit (base : Z) (c : ascii) : option Z :=
  let n := Z.of_nat (nat_of_ascii c) in
  let v :=
    if (48 <=? n) && (n <=? 57) then Some (n - 48)
    else if (97 <=? n) && (n <=? 102) then Some (n - 87)
    else if (65 <=? n) && (n <=? 70) then Some (n - 55)
    else None in
  match v with
  | Some d => if d <? base then Some d else None
  | None => None
  end.

(** Reads the longest run of digits: its value, its length and what follows. *)
Fixpoint digits (base : Z) (s : string) (acc : Z) (len : nat)
  : Z * nat * string :=
  match s with
  | EmptyString => (acc, len, s)
  | String c r =>
      match digit base c with
      | Some d => digits base r (acc * base + d) (S len)
      | None => (acc, len, s)
      end
  end.

(** [mant * 10 ^ e] as a rational. *)
Definition scale10 (mant e : Z) : Q :=
  if 0 <=? e then inject_Z (mant * 10 ^ e) else Qmake mant (Z.to_pos (10 ^ (- e))).

(** ExponentPart, or nothing, up to the end of the string. *)
Definition exponent (s : string) : option Z :=
  match s with
  | EmptyString => Some 0
  | String c r =>
      if (Ascii.eqb c "e" || Ascii.eqb c "E")%bool then
        let '(neg, r') :=
          match r with
          | String "+" t => (false, t)
          | String "-" t => (true, t)
          | _ => (false, r)
          end in
        match digits 10 r' 0 0 with
        | (_, O, _) => None
        | (v, _, EmptyString) => Some (if neg then - v else v)
        | _ => None
        end
      else None
  end.

(** StrUnsignedDecimalLiteral. *)
Definition unsignedDecimal (s : string) : jsnum :=
  if String.eqb s "Infinity" then PosInf else
  let '(ip, ni, r1) := digits 10 s 0 0 in
  let '(fp, nf, r2) :=
    match r1 with
    | String "." t => digits 10 t 0 0
    | _ => (0, O, r1)
    end in
  match (ni + nf)%nat with
  | O => NaN
  | _ =>
      match exponent r2 with
      | Some e => Fin (scale10 (ip * 10 ^ Z.of_nat nf + fp) (e - Z.of_nat nf))
      | None => NaN
      end
  end.

Definition negate (n : jsnum) : jsnum :=
  match n with
  | NaN => NaN
  | PosInf => NegInf
  | NegInf => PosInf
  | Fin q => Fin (Qopp q)
  end.

(** Digits in [base] up to the end of the string (after [0x], [0o], [0b]). *)
Definition radixLiteral (base : Z) (s : string) : jsnum :=
  match digits base s 0 0 with
  | (_, O, _) => NaN
  | (v, _, EmptyString) => Fin (inject_Z v)
  | _ => NaN
  end.

Definition ofString (str : string) : jsnum :=
  match JsString.trim str with
  | EmptyString => Fin 0
  | String "0" (String "x" r) | String "0" (String "X" r) => radixLiteral 16 r
  | String "0" (String "o" r) | String "0" (String "O" r) => radixLiteral 8 r
  | String "0" (String "b" r) | String "0" (String "B" r) => radixLiteral 2 r
  | String "+" r => unsignedDecimal r
  | String "-" r => negate (unsignedDecimal r)
  | s => unsignedDecimal s
  end.

End JsNumber.


(** ** Dynamically typed values *)

(** The values the commands pass where the source relies on dynamic typing:
    an argument that may be missing, a property that may be absent, an object
    literal handed to a function that expects strings. *)
#[warnings="-register-all"]
Inductive jsval : Type :=
| JUndefined
| JNull
| JNumber (z : Z)
| JString (s : string)
| JObject (fields : list (string * jsval)).

Module JsVal.

(** ToBoolean. *)
Definition truthy (v : jsval) : bool :=
  match v with
  | JUndefined | JNull => false
  | JNumber z => negb (z =? 0)
  | JString s => negb (String.eqb s "")
  | JObject _ => true
  end.

(** [String(v)]; a plain object prints as [[object Object]]. *)
Definition toString (v : jsval) : string :=
  match v with
  | JUndefined => "undefined"
  | JNull => "null"
  | JNumber z => JsString.ofZ z
  | JString s => s
  | JObject _ => "[object Object]"
  end.

(** [Number(v)]. *)
Definition toNumber (v : jsval) : jsnum :=
  match v with
  | JUndefined => NaN
  | JNull => Fin 0
  | JNumber z => Fin (inject_Z z)
  | JString s => JsNumber.ofString s
  | JObject _ => NaN
  end.

(** [a || b]. *)
Definition or (a b : jsval) : jsval := if truthy a then a else b.

(** [o.p] on a value: the field of an object literal, [undefined] otherwise. *)
Fixpoint field (p : string) (fields : list (string * jsval)) : jsval :=
  match fields with
  | [] => JUndefined
  | (k, v) :: r => if String.eqb k p then v else field p r
  end.

Definition get (v : jsval) (p : string) : jsval :=
  match v with
  | JObject fields => field p fields
  | _ => JUndefined
  end.

End JsVal.

(** ** Objects used as maps, in insertion order *)

Definition obj (V : Type) : Type := list (string * V).

Module Obj.
Section Ops.
Context {V : Type}.

(** [o[k]], [None] standing for [undefined]. *)
Fixpoint get (o : obj V) (k : string) : option V :=
  match o with
  | [] => None
  | (k', v) :: r => if String.eqb k' k then Some v else get r k
  end.

(** [o[k] = v]: an existing key keeps its place, a new one goes last. *)
Fixpoint set (o : obj V) (k : string) (v : V) : obj V :=
  match o with
  | [] => [(k, v)]
  | (k', v') :: r =>
      if String.eqb k' k then (k', v) :: r else (k', v') :: set r k v
  end.

(** [Object.entries(o)] and [Object.values(o)]. *)
Definition entries (o : obj V) : list (string * V) := o.
Definition values (o : obj V) : list V := map snd o.
End Ops.
End Obj.

(** ** Arrays *)

Module JsArray.
Section Ops.
Context {A : Type}.

(** [a.slice(start)]: a negative [start] counts from the end, and [-0] is [0]. *)
Definition sliceFrom (start : Z) (a : list A) : list A :=
  let len := Z.of_nat (List.length a) in
  let k := if start <? 0 then Z.max (len + start) 0 else Z.min start len in
  skipn (Z.to_nat k) a.

(** [a.slice(0, stop)]. *)
Definition sliceTo (stop : Z) (a : list A) : list A :=
  let len := Z.of_nat (List.length a) in
  let k := if stop <? 0 then Z.max (len + stop) 0 else Z.min stop len in
  firstn (Z.to_nat k) a.

(** [a.sort((x, y) => key(y) - key(x))]: descending by [key]; the sort of
    the language is stable, so elements with equal keys keep their order. *)
Fixpoint insertDesc (key : A -> Z) (x : A) (sorted : list A) : list A :=
  match sorted with
  | [] => [x]
  | y :: r => if key y <=? key x then x :: sorted else y :: insertDesc key x r
  end.

Definition sortDesc (key : A -> Z) (a : list A) : list A :=
  fold_right (insertDesc key) [] a.
End Ops.
End JsArray.

(** ** The data model of [bankData] *)

(** An entry of either log: [{ timestamp, type, amount, actorId, note }]. *)
Module Tx.
Record t : Type := mk {
  timestamp : string;
  type : string;    (* "deposit" | "withdraw" | "loan" | "repay" | "accrue" | "resolve" *)
  amount : Z;
  actorId : string;
  note : string }.
End Tx.

(** A loan record, with the properties of the object [loanCommand] stores. *)
Module Loan.
Record t : Type := mk {
  borrowerName : string;
  lenderName : string;
  balance : Z;
  status : string;  (* "open" | "resolved" *)
  timestamp : string;
  note : string }.

Definition toObject (l : t) : jsval :=
  JObject [ ("borrowerName", JString (borrowerName l));
            ("lenderName", JString (lenderName l));
            ("balance", JNumber (balance l));
            ("status", JString (status l));
            ("timestamp", JString (timestamp l));
            ("note", JString (note l)) ].

(** [loan.p] for a property name [p]. *)
Definition prop (l : t) (p : string) : jsval := JsVal.get (toObject l) p.

Definition withBalance (l : t) (b : Z) : t :=
  mk (borrowerName l) (lenderName l) b (status l) (timestamp l) (note l).

Definition withStatus (l : t) (s : string) : t :=
  mk (borrowerName l) (lenderName l) (balance l) s (timestamp l) (note l).
End Loan.

Module Profile.
Record t : Type := mk { name : string }.
End Profile.

Record BankData : Type := mkBankData {
  balances : obj Z;
  transactions : obj (list Tx.t);
  profiles : obj Profile.t;
  loans : obj Loan.t;
  loanTransactions : obj (list Tx.t) }.

(** The initial value of [bankData]. *)
Definition emptyBankData : BankData := mkBankData [] [] [] [] [].

(** A chat user and the part of a received message the commands read. *)
Record User : Type := mkUser { userId : string; username : string }.

Record Message : Type := mkMessage {
  author : User;
  mentions : list User }.   (* message.mentions.users, in order *)

(** What a command reads from outside the program. *)
Record Env : Type := mkEnv {
  isoNow : string;        (* new Date().toISOString() *)
  nowBase36 : string;     (* Date.now().toString(36) *)
  nowDecimal : string;    (* String(Date.now()) *)
  randomBase36 : string;  (* Math.random().toString(36).slice(2, 8) *)
  sendFails : bool;       (* the promise of message.channel.send rejects *)
  writeFails : bool }.    (* fs.writeFileSync throws *)

(** ** The snapshot file *)

(** The parsed content of [bank-data.json]: a top-level key may be missing
    ([None]; [loadData] treats a key whose value is [null] the same way). *)
Record Document : Type := mkDocument {
  docBalances : option (obj Z);
  docTransactions : option (obj (list Tx.t));
  docProfiles : option (obj Profile.t);
  docLoans : option (obj Loan.t);
  docLoanTransactions : option (obj (list Tx.t)) }.

(** What [loadData] finds on disk. *)
Inductive DataFile : Type :=
| Absent                    (* fs.existsSync(DATA_FILE) is false *)
| Unreadable                (* readFileSync or JSON.parse throws *)
| Content (d : Document).

(** [x || {}] for a container that may be missing. *)
Definition orEmpty {V : Type} (o : option (obj V)) : obj V :=
  match o with
  | Some m => m
  | None => []
  end.

Definition loadData (file : DataFile) (bankData : BankData) : BankData :=
  match file with
  | Content d =>
      mkBankData (orEmpty (docBalances d)) (orEmpty (docTransactions d))
                 (orEmpty (docProfiles d)) (orEmpty (docLoans d))
                 (orEmpty (docLoanTransactions d))
  | Absent | Unreadable => bankData
  end.

(** The document [saveData] writes: [JSON.stringify(bankData, null, 2)]. *)
Definition saveData (bankData : BankData) : Document :=
  mkDocument (Some (balances bankData)) (Some (transactions bankData))
             (Some (profiles bankData)) (Some (loans bankData))
             (Some (loanTransactions bankData)).

(** ** Accessors of the store *)

(** [x || 0] for a number that may be missing. *)
Definition orZero (o : option Z) : Z :=
  match o with
  | Some b => if b =? 0 then 0 else b
  | None => 0
  end.

Definition getBalance (bankData : BankData) (accountName : string) : Z :=
  orZero (Obj.get (balances bankData) accountName).

Definition setBalance (bankData : BankData) (accountName : string) (amount : Z)
  : BankData :=
  mkBankData (Obj.set (balances bankData) accountName amount)
             (transactions bankData) (profiles bankData) (loans bankData)
             (loanTransactions bankData).

(** [list || []] for a log that may be missing. *)
Definition orNil {A : Type} (o : option (list A)) : list A :=
  match o with
  | Some l => l
  | None => []
  end.

Definition recordTransaction (env : Env) (bankData : BankData)
    (accountName type : string) (amount : Z) (actorId note : string) : BankData :=
  let log := orNil (Obj.get (transactions bankData) accountName) in
  mkBankData (balances bankData)
             (Obj.set (transactions bankData) accountName
                (log ++ [Tx.mk (isoNow env) type amount actorId note]))
             (profiles bankData) (loans bankData) (loanTransactions bankData).

Definition normalizeLoanId (id : jsval) : option string :=
  if negb (JsVal.truthy id) then None else
  let id := JsString.trim (JsVal.toString id) in
  if (String.length id =? 0)%nat then None else
  Some (JsString.substring0 64 id).

(** [bankData.loans[loanId] || null]; a key is converted to a string. *)
Definition getLoan (bankData : BankData) (loanId : jsval) : option Loan.t :=
  Obj.get (loans bankData) (JsVal.toString loanId).

Definition setLoan (bankData : BankData) (loanId : jsval) (loan : Loan.t)
  : BankData :=
  mkBankData (balances bankData) (transactions bankData) (profiles bankData)
             (Obj.set (loans bankData) (JsVal.toString loanId) loan)
             (loanTransactions bankData).

(** [ensureLoanTxList(loanId).push({...})]. *)
Definition recordLoanTransaction (env : Env) (bankData : BankData)
    (loanId : jsval) (type : string) (amount : Z) (actorId note : string)
  : BankData :=
  let key := JsVal.toString loanId in
  let log := orNil (Obj.get (loanTransactions bankData) key) in
  mkBankData (balances bankData) (transactions bankData) (profiles bankData)
             (loans bankData)
             (Obj.set (loanTransactions bankData) key
                (log ++ [Tx.mk (isoNow env) type amount actorId note])).

Definition isSome {A : Type} (o : option A) : bool :=
  match o with Some _ => true | None => false end.

Definition isLoanId (bankData : BankData) (str : jsval) : bool :=
  match normalizeLoanId str with
  | None => false
  | Some id =>
      isSome (Obj.get (loans bankData) id)
      || isSome (Obj.get (loanTransactions bankData) id)
  end.

(** ** Aggregation views *)

Definition getTopGpEntries (bankData : BankData) (limit : Z) : list (string * Z) :=
  JsArray.sliceTo limit
    (JsArray.sortDesc snd
       (filter (fun e => 0 <? snd e)
          (map (fun e => (fst e, orZero (Some (snd e))))
             (Obj.entries (balances bankData))))).

(** A value of [debtByBorrower]: the object literal [{ debt: 0 }]. *)
Module DebtRow.
Record t : Type := mk { debt : Z }.

Definition toObject (r : t) : jsval := JObject [ ("debt", JNumber (debt r)) ].

(** [row.p] for a property name [p]. *)
Definition prop (r : t) (p : string) : jsval := JsVal.get (toObject r) p.
End DebtRow.

(** One turn of the loop of [getTopDebtEntries]. *)
Definition addDebt (debtByBorrower : obj DebtRow.t) (loan : Loan.t)
  : obj DebtRow.t :=
  if String.eqb (Loan.status loan) "resolved" then debtByBorrower else
  let bal := orZero (Some (Loan.balance loan)) in
  if bal <=? 0 then debtByBorrower else
  let borrowerName :=
    if String.eqb (Loan.borrowerName loan) "" then "Unknown"
    else Loan.borrowerName loan in
  let debtByBorrower :=
    if isSome (Obj.get debtByBorrower borrowerName) then debtByBorrower
    else Obj.set debtByBorrower borrowerName (DebtRow.mk 0) in
  let row :=
    match Obj.get debtByBorrower borrowerName with
    | Some r => r
    | None => DebtRow.mk 0
    end in
  Obj.set debtByBorrower borrowerName (DebtRow.mk (DebtRow.debt row + bal)).

Definition debtByBorrower (bankData : BankData) : obj DebtRow.t :=
  fold_left addDebt (map snd (Obj.entries (loans bankData))) [].

Definition getTopDebtEntries (bankData : BankData) (limit : Z) : list DebtRow.t :=
  JsArray.sliceTo limit
    (JsArray.sortDesc DebtRow.debt
       (filter (fun v => 0 <? DebtRow.debt v)
          (Obj.values (debtByBorrower bankData)))).

(** ** Name profiles *)

Definition getDefaultNameForUser (bankData : BankData) (user : User) : string :=
  match Obj.get (profiles bankData) (userId user) with
  | Some profile =>
      if String.eqb (Profile.name profile) "" then username user
      else Profile.name profile
  | None => username user
  end.

(** [args[i]]: [undefined] past the end. *)
Definition arg (args : list string) (i : nat) : jsval :=
  match nth_error args i with
  | Some s => JString s
  | None => JUndefined
  end.

Definition resolveAccountName (bankData : BankData) (message : Message)
    (firstArg : jsval) : string :=
  match mentions message with
  | targetUser :: _ => getDefaultNameForUser bankData targetUser
  | [] =>
      if JsVal.truthy firstArg then JsVal.toString firstArg
      else getDefaultNameForUser bankData (author message)
  end.

(** The [name] of the person [resolvePersonFromArgOrMention] returns; the
    commands read nothing else of it. *)
Definition resolvePersonFromArgOrMention (bankData : BankData)
    (message : Message) (a : jsval) : string :=
  match mentions message with
  | u :: _ => getDefaultNameForUser bankData u
  | [] =>
      if JsVal.truthy a then JsString.trim (JsVal.toString a)
      else getDefaultNameForUser bankData (author message)
  end.

(** ** Utilities *)

Definition parseAmount (str : jsval) : option Z :=
  if negb (JsVal.truthy str) then None else
  let n := JsVal.toNumber str in
  if negb (JsNumber.isFinite n) || JsNumber.le0 n then None
  else Some (JsNumber.floor n).

Definition eqName (a b : jsval) : bool :=
  String.eqb
    (JsString.toLowerCase (JsString.trim (JsVal.toString (JsVal.or a (JString "")))))
    (JsString.toLowerCase (JsString.trim (JsVal.toString (JsVal.or b (JString ""))))).

Definition generateLoanId (env : Env) : string :=
  let base := ("loan_" ++ nowBase36 env ++ "_" ++ randomBase36 env)%string in
  match normalizeLoanId (JString base) with
  | Some safe => safe
  | None => ("loan_" ++ nowDecimal env)%string
  end.

(** [findOpenLoans(borrowerName, lenderName)]: two positional parameters. *)
Definition findOpenLoans (bankData : BankData) (borrowerName lenderName : jsval)
  : list Loan.t :=
  map snd
    (filter
       (fun e =>
          let borrowerMatch := eqName (JString (Loan.borrowerName (snd e))) borrowerName in
          let lenderMatch := eqName (JString (Loan.lenderName (snd e))) lenderName in
          borrowerMatch && lenderMatch)
       (filter (fun e => negb (String.eqb (Loan.status (snd e)) "resolved"))
          (Obj.entries (loans bankData)))).

(** [Number.isFinite(Number(args[0])) && !message.mentions.users.size]. *)
Definition firstIsNumber (message : Message) (args : list string) : bool :=
  JsNumber.isFinite (JsVal.toNumber (arg args 0))
  && (List.length (mentions message) =? 0)%nat.

(** ** Replies *)

(** The text handed to [message.channel.send], by template; a constructor
    carries the values its template interpolates. *)
Inductive Reply : Type :=
| Usage (command : string)
| AmountMustBePositive            (* "Amount must be a positive number." *)
| Deposited (amount : Z) (accountName : string) (newBalance oldBalance : Z)
| CannotWithdraw (amount : Z) (accountName : string) (oldBalance : Z)
    (* "Cannot withdraw **amount GP** from **name**; it only has **old GP**." *)
| Withdrew (amount : Z) (accountName : string) (newBalance oldBalance : Z)
| BalanceFor (accountName : string) (balance : Z)
| NoTransactions (accountName : string)
| LastTransactions (accountName : string) (recent : list Tx.t)
| LenderCannotBeEmpty             (* "Lender cannot be empty." *)
| LoanCreated (borrowerName lenderName : string) (amount : Z) (note : string)
| NoUnresolvedLoan (borrowerName lenderName : string)
    (* "No unresolved loan found for borrower **b** with lender **l**." *)
| MultipleUnresolvedLoans (command borrowerName lenderName : string)
    (loanNoteMappings : list (jsval * jsval))   (* m.loanId and m.note of each match *)
| LoanNotFound (loanId : jsval)   (* "Loan **id** not found." *)
| LoanAlreadyResolved (loanId : jsval)     (* "Loan **id** is already resolved." *)
| LoanResolvedNoAccrual (loanId : jsval)   (* "Loan **id** is resolved; cannot accrue more." *)
| NotBorrowersLoan (loanId : jsval) (borrowerName : string)
| Repaid (amount : Z) (lenderName : string) (newBal oldBal : Z)
    (note : option string) (nowResolved : bool)
| Accrued (amount : Z) (lenderName : string) (newBal oldBal : Z)
    (note : option string)
| Leaderboards (gpEntries : list (string * Z))
    (debtEntries : list (jsval * jsval))        (* row.name and row.debt of each row *)
| NoLeaderboard
| NameEmpty
| NameTooLong
| NameSet (name : string)
| BusyTryAgain   (* "Busy processing another transaction, try again in a moment." *)
| UnknownCommand      (* "Unknown command. Try `!help`." *)
| SomethingWentWrong  (* "Something went wrong processing that command." *)
| ReadOnlyReply (command : string).   (* help, exportdb, debt, debtors: not detailed *)

Inductive Event : Type :=
| Sent (r : Reply)          (* message.channel.send(r) *)
| Saved (d : Document).     (* saveData() *)

(** How a command function ends: the store it leaves, what it did, and
    whether the promise it returns rejects. *)
Record Outcome : Type := mkOutcome {
  bank : BankData;
  events : list Event;
  threw : bool }.

(** [return message.channel.send(r)]: a failure to send becomes the
    command's own. *)
Definition returnSend (env : Env) (bankData : BankData) (r : Reply) : Outcome :=
  mkOutcome bankData [Sent r] (sendFails env).

(** [message.channel.send(r);] as the last statement: its promise is dropped. *)
Definition justSend (bankData : BankData) (r : Reply) : Outcome :=
  mkOutcome bankData [Sent r] false.

(** ** Commands of the account ledger *)

(** The argument parsing [depositCommand] and [withdrawCommand] both start
    with: the account, the amount argument and the words of the note, or
    [None] where the usage text is sent. *)
Definition accountArguments (bankData : BankData) (message : Message)
    (args : list string) : option (string * jsval * list string) :=
  if (List.length args <? 2)%nat then None else
  if firstIsNumber message args then
    Some (getDefaultNameForUser bankData (author message), arg args 0, skipn 1 args)
  else
    if (List.length args <? 3)%nat then None else
    Some (resolveAccountName bankData message (arg args 0), arg args 1, skipn 2 args).

Definition depositCommand (env : Env) (bankData : BankData) (message : Message)
    (args : list string) : Outcome :=
  match accountArguments bankData message args with
  | None => returnSend env bankData (Usage "deposit")
  | Some (accountName, amountArg, noteArgs) =>
      match parseAmount amountArg with
      | None => returnSend env bankData AmountMustBePositive
      | Some amount =>
          let note := JsString.join " " noteArgs in
          let oldBalance := getBalance bankData accountName in
          let newBalance := oldBalance + amount in
          let bankData := setBalance bankData accountName newBalance in
          let bankData :=
            recordTransaction env bankData accountName "deposit" amount
              (userId (author message)) note in
          justSend bankData (Deposited amount accountName newBalance oldBalance)
      end
  end.

Definition withdrawCommand (env : Env) (bankData : BankData) (message : Message)
    (args : list string) : Outcome :=
  match accountArguments bankData message args with
  | None => returnSend env bankData (Usage "withdraw")
  | Some (accountName, amountArg, noteArgs) =>
      match parseAmount amountArg with
      | None => returnSend env bankData AmountMustBePositive
      | Some amount =>
          let oldBalance := getBalance bankData accountName in
          if oldBalance <? amount then
            returnSend env bankData (CannotWithdraw amount accountName oldBalance)
          else
            let note := JsString.join " " noteArgs in
            let newBalance := oldBalance - amount in
            let bankData := setBalance bankData accountName newBalance in
            let bankData :=
              recordTransaction env bankData accountName "withdraw" amount
                (userId (author message)) note in
            justSend bankData (Withdrew amount accountName newBalance oldBalance)
      end
  end.

Definition balanceCommand (bankData : BankData) (message : Message)
    (args : list string) : Outcome :=
  let accountName := resolveAccountName bankData message (arg args 0) in
  justSend bankData (BalanceFor accountName (getBalance bankData accountName)).

(** The [count] of [historyCommand] and the account it reads. *)
Definition historyArguments (bankData : BankData) (message : Message)
    (args : list string) : string * Z :=
  let accountName := getDefaultNameForUser bankData (author message) in
  let count := 5 in
  if (List.length args =? 0)%nat then (accountName, count) else
  if firstIsNumber message args then
    let n := JsVal.toNumber (arg args 0) in
    let count :=
      if JsNumber.gt0 n && JsNumber.leZ n 20 then JsNumber.floor n else count in
    (getDefaultNameForUser bankData (author message), count)
  else
    let accountName := resolveAccountName bankData message (arg args 0) in
    let count :=
      if JsVal.truthy (arg args 1) then
        let n := JsVal.toNumber (arg args 1) in
        if JsNumber.isFinite n && JsNumber.gt0 n && JsNumber.leZ n 20
        then JsNumber.floor n else count
      else count in
    (accountName, count).

(** The entries [historyCommand] shows: [list.slice(-count)]. *)
Definition historyRecent (bankData : BankData) (message : Message)
    (args : list string) : list Tx.t :=
  let '(accountName, count) := historyArguments bankData message args in
  JsArray.sliceFrom (- count) (orNil (Obj.get (transactions bankData) accountName)).

Definition historyCommand (env : Env) (bankData : BankData) (message : Message)
    (args : list string) : Outcome :=
  let '(accountName, count) := historyArguments bankData message args in
  let list := orNil (Obj.get (transactions bankData) accountName) in
  if (List.length list =? 0)%nat then
    returnSend env bankData (NoTransactions accountName)
  else
    justSend bankData (LastTransactions accountName (JsArray.sliceFrom (- count) list)).

(** ** Commands of the loan engine *)

(** [s || d] for strings. *)
Definition orString (s d : string) : string :=
  if String.eqb s "" then d else s.

(** The argument parsing of [loanCommand]: the borrower's name, the amount
    argument, the lender argument and the words of the note. *)
Definition loanArguments (bankData : BankData) (message : Message)
    (args : list string) : option (string * jsval * jsval * list string) :=
  if (List.length args <? 3)%nat then None else
  if firstIsNumber message args then
    Some (getDefaultNameForUser bankData (author message),
          arg args 0, arg args 1, skipn 2 args)
  else
    if (List.length args <? 4)%nat then None else
    Some (resolvePersonFromArgOrMention bankData message (arg args 0),
          arg args 1, arg args 2, skipn 3 args).

Definition loanCommand (env : Env) (bankData : BankData) (message : Message)
    (args : list string) : Outcome :=
  match loanArguments bankData message args with
  | None => returnSend env bankData (Usage "loan")
  | Some (borrowerName, amountArg, lenderArg, noteArgs) =>
      match parseAmount amountArg with
      | None => returnSend env bankData AmountMustBePositive
      | Some amount =>
          let lenderName :=
            JsString.trim (JsVal.toString (JsVal.or lenderArg (JString ""))) in
          if String.eqb lenderName "" then returnSend env bankData LenderCannotBeEmpty
          else
            let loanId := JString (generateLoanId env) in
            let now := isoNow env in
            let note := JsString.join " " noteArgs in
            let loan :=
              Loan.mk (orString borrowerName "Unknown") (orString lenderName "Unknown")
                      amount "open" now (orString note "") in
            let bankData := setLoan bankData loanId loan in
            let bankData :=
              recordLoanTransaction env bankData loanId "loan" amount
                (userId (author message)) (orString note "Loan created") in
            returnSend env bankData
              (LoanCreated (Loan.borrowerName loan) (Loan.lenderName loan) amount note)
      end
  end.

(** The argument parsing [repayCommand] and [accrueCommand] both start with:
    the borrower's name, the amount argument and the target argument. *)
Definition targetArguments (bankData : BankData) (message : Message)
    (args : list string) : option (string * jsval * jsval) :=
  if (List.length args <? 2)%nat then None else
  if firstIsNumber message args then
    Some (getDefaultNameForUser bankData (author message), arg args 0, arg args 1)
  else
    if (List.length args <? 3)%nat then None else
    Some (resolvePersonFromArgOrMention bankData message (arg args 0),
          arg args 1, arg args 2).

(** The block "Get loan ID" of [repayCommand] and [accrueCommand]: the loan
    id to work on, or the reply that ends the command.  The call site hands
    [findOpenLoans] one object literal, so its second parameter is
    [undefined]; and [m.loanId] reads a property of the loan record. *)
Definition resolveTarget (command : string) (bankData : BankData)
    (borrowerName : string) (targetArg : jsval) : Reply + jsval :=
  if isLoanId bankData targetArg then
    match normalizeLoanId targetArg with
    | Some id => inr (JString id)
    | None => inr JNull
    end
  else
    let lenderName :=
      JsString.trim (JsVal.toString (JsVal.or targetArg (JString ""))) in
    if String.eqb lenderName "" then inl LenderCannotBeEmpty else
    let matches :=
      findOpenLoans bankData
        (JObject [ ("borrowerName", JString borrowerName);
                   ("lenderName", JString lenderName) ])
        JUndefined in
    match matches with
    | [] => inl (NoUnresolvedLoan borrowerName lenderName)
    | m :: [] => inr (Loan.prop m "loanId")
    | _ =>
        inl (MultipleUnresolvedLoans command borrowerName lenderName
               (map (fun m => (Loan.prop m "loanId", Loan.prop m "note")) matches))
    end.

Definition repayCommand (env : Env) (bankData : BankData) (message : Message)
    (args : list string) : Outcome :=
  match targetArguments bankData message args with
  | None => returnSend env bankData (Usage "repay")
  | Some (borrowerName, amountArg, targetArg) =>
      match parseAmount amountArg with
      | None => returnSend env bankData AmountMustBePositive
      | Some amount =>
          let actorId := userId (author message) in
          match resolveTarget "repay" bankData borrowerName targetArg with
          | inl rejection => returnSend env bankData rejection
          | inr loanId =>
              match getLoan bankData loanId with
              | None => returnSend env bankData (LoanNotFound loanId)
              | Some loan =>
                  if String.eqb (Loan.status loan) "resolved" then
                    returnSend env bankData (LoanAlreadyResolved loanId)
                  else if negb (eqName (JString (Loan.borrowerName loan))
                                       (JString borrowerName)) then
                    returnSend env bankData (NotBorrowersLoan loanId borrowerName)
                  else
                    let oldBal := orZero (Some (Loan.balance loan)) in
                    let newBal := Z.max 0 (oldBal - amount) in
                    let loan := Loan.withBalance loan newBal in
                    let bankData := setLoan bankData loanId loan in
                    let bankData :=
                      recordLoanTransaction env bankData loanId "repay" amount
                        actorId "" in
                    let extraNote :=
                      if isLoanId bankData targetArg then Some (Loan.note loan)
                      else None in
                    if newBal =? 0 then
                      let loan := Loan.withStatus loan "resolved" in
                      let bankData := setLoan bankData loanId loan in
                      let bankData :=
                        recordLoanTransaction env bankData loanId "resolve" 0
                          actorId "Loan resolved" in
                      returnSend env bankData
                        (Repaid amount (Loan.lenderName loan) newBal oldBal
                           extraNote true)
                    else
                      returnSend env bankData
                        (Repaid amount (Loan.lenderName loan) newBal oldBal
                           extraNote false)
              end
          end
      end
  end.

Definition accrueCommand (env : Env) (bankData : BankData) (message : Message)
    (args : list string) : Outcome :=
  match targetArguments bankData message args with
  | None => returnSend env bankData (Usage "accrue")
  | Some (borrowerName, amountArg, targetArg) =>
      match parseAmount amountArg with
      | None => returnSend env bankData AmountMustBePositive
      | Some amount =>
          let actorId := userId (author message) in
          match resolveTarget "accrue" bankData borrowerName targetArg with
          | inl rejection => returnSend env bankData rejection
          | inr loanId =>
              match getLoan bankData loanId with
              | None => returnSend env bankData (LoanNotFound loanId)
              | Some loan =>
                  if String.eqb (Loan.status loan) "resolved" then
                    returnSend env bankData (LoanResolvedNoAccrual loanId)
                  else if negb (eqName (JString (Loan.borrowerName loan))
                                       (JString borrowerName)) then
                    returnSend env bankData (NotBorrowersLoan loanId borrowerName)
                  else
                    let oldBal := orZero (Some (Loan.balance loan)) in
                    let newBal := oldBal + amount in
                    let loan := Loan.withBalance loan newBal in
                    let bankData := setLoan bankData loanId loan in
                    let bankData :=
                      recordLoanTransaction env bankData loanId "accrue" amount
                        actorId "" in
                    let extraNote :=
                      if isLoanId bankData targetArg then Some (Loan.note loan)
                      else None in
                    returnSend env bankData
                      (Accrued amount (Loan.lenderName loan) newBal oldBal extraNote)
              end
          end
      end
  end.

(** ** The leaderboard *)

Definition leaderboardCount (args : list string) : Z :=
  if JsVal.truthy (arg args 0) then
    let n := JsVal.toNumber (arg args 0) in
    if JsNumber.isFinite n && JsNumber.gt0 n then Z.min 10 (JsNumber.floor n)
    else 10
  else 10.

(** The rows of the debt section as [leaderboardCommand] prints them:
    [row.name] and [row.debt]. *)
Definition debtLines (debtEntries : list DebtRow.t) : list (jsval * jsval) :=
  map (fun row => (DebtRow.prop row "name", DebtRow.prop row "debt")) debtEntries.

Definition leaderboardCommand (env : Env) (bankData : BankData)
    (args : list string) : Outcome :=
  let count := leaderboardCount args in
  let gpEntries := getTopGpEntries bankData count in
  let debtEntries := getTopDebtEntries bankData count in
  match gpEntries, debtEntries with
  | [], [] => returnSend env bankData NoLeaderboard
  | _, _ => returnSend env bankData (Leaderboards gpEntries (debtLines debtEntries))
  end.

(** ** Name profiles: [setname] *)

(** [name.split(" ")[0]]. *)
Fixpoint firstWord (s : string) : string :=
  match s with
  | EmptyString => EmptyString
  | String c r => if Ascii.eqb c " " then EmptyString else String c (firstWord r)
  end.

Definition setDefaultNameForUser (bankData : BankData) (user : User)
    (name : string) : BankData :=
  let name := JsString.substring0 32 (firstWord name) in
  mkBankData (balances bankData) (transactions bankData)
             (Obj.set (profiles bankData) (userId user)
                (Profile.mk (JsString.trim name)))
             (loans bankData) (loanTransactions bankData).

Definition setNameCommand (env : Env) (bankData : BankData) (message : Message)
    (args : list string) : Outcome :=
  if (List.length args =? 0)%nat then returnSend env bankData (Usage "setname") else
  let name := JsString.trim (JsString.join " " args) in
  if (String.length name =? 0)%nat then returnSend env bankData NameEmpty else
  if (32 <? String.length name)%nat then returnSend env bankData NameTooLong else
  let bankData := setDefaultNameForUser bankData (author message) name in
  mkOutcome bankData [Saved (saveData bankData); Sent (NameSet name)] false.

(** ** The busy gate and the dispatch of commands *)

(** The mutable state of the process: [bankData], [busy] and the data file. *)
Record World : Type := mkWorld {
  store : BankData;
  busy : bool;
  dataFile : DataFile }.

(** How [processCommand] ends: the state it leaves, what it did, and whether
    its promise rejects. *)
Record Result : Type := mkResult {
  world : World;
  trace : list Event;
  rejected : bool }.

(** The file after the [saveData()] calls among [evs]: a write that fails
    is caught and leaves the file as it was. *)
Definition written (env : Env) (evs : list Event) (file : DataFile) : DataFile :=
  fold_left
    (fun f e =>
       match e with
       | Saved d => if writeFails env then f else Content d
       | Sent _ => f
       end)
    evs file.

(** A command that runs outside the gate. *)
Definition ungated (env : Env) (w : World) (out : Outcome) : Result :=
  mkResult (mkWorld (bank out) (busy w) (written env (events out) (dataFile w)))
           (events out) (threw out).

(** The block both groups of mutating commands run in:
    [if (busy) return send(...); busy = true;
     try { await command(...); saveData(); } finally { busy = false; }]. *)
Definition gated (env : Env) (w : World) (command : BankData -> Outcome) : Result :=
  if busy w then mkResult w [Sent BusyTryAgain] (sendFails env) else
  let out := command (store w) in
  if threw out then
    mkResult (mkWorld (bank out) false (dataFile w)) (events out) true
  else
    let evs := events out ++ [Saved (saveData (bank out))] in
    mkResult (mkWorld (bank out) false (written env evs (dataFile w))) evs false.

Definition processCommand (env : Env) (w : World) (message : Message)
    (primaryCommand : string) (args : list string) : Result :=
  let named c := String.eqb primaryCommand c in
  if named "help" then ungated env w (justSend (store w) (ReadOnlyReply "help"))
  else if named "exportdb" then
    ungated env w (returnSend env (store w) (ReadOnlyReply "exportdb"))
  else if named "setname" then ungated env w (setNameCommand env (store w) message args)
  else if named "deposit" then
    gated env w (fun bankData => depositCommand env bankData message args)
  else if named "withdraw" then
    gated env w (fun bankData => withdrawCommand env bankData message args)
  else if named "balance" then ungated env w (balanceCommand (store w) message args)
  else if named "loan" then
    gated env w (fun bankData => loanCommand env bankData message args)
  else if named "repay" then
    gated env w (fun bankData => repayCommand env bankData message args)
  else if named "accrue" then
    gated env w (fun bankData => accrueCommand env bankData message args)
  else if named "debt" then
    ungated env w (returnSend env (store w) (ReadOnlyReply "debt"))
  else if named "debtors" then
    ungated env w (returnSend env (store w) (ReadOnlyReply "debtors"))
  else if named "history" then ungated env w (historyCommand env (store w) message args)
  else if named "leaderboard" then ungated env w (leaderboardCommand env (store w) args)
  else ungated env w (justSend (store w) UnknownCommand).

(** The listener of [Events.MessageCreate]: a rejected [processCommand] is
    caught, reported and clears [busy]. *)
Definition onMessage (env : Env) (w : World) (message : Message)
    (primaryCommand : string) (args : list string) : World * list Event :=
  let r := processCommand env w message primaryCommand args in
  if rejected r then
    (mkWorld (store (world r)) false (dataFile (world r)),
     trace r ++ [Sent SomethingWentWrong])
  else (world r, trace r).

(** The state of a process that has just started, and after ["ready"]. *)
Definition initialWorld (file : DataFile) : World := mkWorld emptyBankData false file.

Definition onReady (w : World) : World :=
  mkWorld (loadData (dataFile w) (store w)) (busy w) (dataFile w).

(** ** Runs of the process *)

(** One received message, with what the environment answers while it is
    handled. *)
Record Input : Type := mkInput {
  inEnv : Env;
  inMessage : Message;
  inCommand : string;
  inArgs : list string }.

Definition step (state : World * list Event) (i : Input) : World * list Event :=
  let '(w, evs) :=
    onMessage (inEnv i) (fst state) (inMessage i) (inCommand i) (inArgs i) in
  (w, snd state ++ evs).

(** The state and everything sent or saved after the messages [inputs]. *)
Definition run (inputs : list Input) (w : World) : World * list Event :=
  fold_left step inputs (w, []).

(** ** Vocabulary of the properties *)

(** The log of an account and of a loan. *)
Definition accountLog (bankData : BankData) (accountName : string) : list Tx.t :=
  orNil (Obj.get (transactions bankData) accountName).

Definition loanLog (bankData : BankData) (loanId : jsval) : list Tx.t :=
  orNil (Obj.get (loanTransactions bankData) (JsVal.toString loanId)).


(** The sum of the deposits, and of the withdrawals, that the replies in a
    trace acknowledge for an account. *)
Fixpoint depositsAcknowledged (accountName : string) (evs : list Event) : Z :=
  match evs with
  | [] => 0
  | Sent (Deposited amount name _ _) :: r =>
      (if String.eqb name accountName then amount else 0)
      + depositsAcknowledged accountName r
  | _ :: r => depositsAcknowledged accountName r
  end.

Fixpoint withdrawalsAcknowledged (accountName : string) (evs : list Event) : Z :=
  match evs with
  | [] => 0
  | Sent (Withdrew amount name _ _) :: r =>
      (if String.eqb name accountName then amount else 0)
      + withdrawalsAcknowledged accountName r
  | _ :: r => withdrawalsAcknowledged accountName r
  end.

(** The snapshots a trace writes. *)
Definition savedDocuments (evs : list Event) : list Document :=
  flat_map (fun e => match e with Saved d => [d] | Sent _ => [] end) evs.

(** The commands that run behind the busy gate. *)
Definition mutatingCommands : list string :=
  ["deposit"; "withdraw"; "loan"; "repay"; "accrue"].

(** The function [processCommand] awaits for a mutating command. *)
Definition commandFunction (env : Env) (message : Message)
    (primaryCommand : string) (args : list string) (bankData : BankData) : Outcome :=
  if String.eqb primaryCommand "deposit" then depositCommand env bankData message args
  else if String.eqb primaryCommand "withdraw" then withdrawCommand env bankData message args
  else if String.eqb primaryCommand "loan" then loanCommand env bankData message args
  else if String.eqb primaryCommand "repay" then repayCommand env bankData message args
  else accrueCommand env bankData message args.


(** ** Scenarios *)

Module Scenario.

Definition env : Env :=
  mkEnv "2026-01-01T00:00:00.000Z" "mk0abc" "1767225600000" "x1y2z3" false false.

Definition vani : User := mkUser "1" "Vani".

Definition fromVani : Message := mkMessage vani [].

Definition say (primaryCommand : string) (args : list string) : Input :=
  mkInput env fromVani primaryCommand args.

(** A process that starts without a data file. *)
Definition fresh : World := onReady (initialWorld Absent).

(** After [!loan 100 Vixil Tuning cost]. *)
Definition withLoan : World :=
  fst (run [say "loan" ["100"; "Vixil"; "Tuning"; "cost"]] fresh).

Definition loanId : string := "loan_mk0abc_x1y2z3".

(** After the loan has been repaid in full, by id. *)
Definition withResolvedLoan : World :=
  fst (run [say "repay" ["100"; loanId]] withLoan).

(** What is sent next: an accrual aimed at the loan, and a new loan, created
    a little later. *)
Definition later : Env :=
  mkEnv "2026-01-02T00:00:00.000Z" "mk1xyz" "1767312000000" "q7r8s9" false false.

Definition afterResolution : list Input :=
  [ say "accrue" ["5"; loanId];
    mkInput later fromVani "loan" ["40"; "Vixil"; "again"] ].

(** After [!deposit 10 pay], twenty-one times. *)
Definition withHistory : World :=
  fst (run (repeat (say "deposit" ["10"; "pay"]) 21) fresh).

End Scenario.

(** What one command function does to the ledger: nothing, an accepted
    deposit, or a successful withdrawal. *)
Definition ledgerUntouched (bankData : BankData) (out : Outcome) : Prop :=
  balances (bank out) = balances bankData
  /\ transactions (bank out) = transactions bankData
  /\ forall name,
       depositsAcknowledged name (events out) = 0
       /\ withdrawalsAcknowledged name (events out) = 0.





(** A loan record and its log are the same in two stores. *)
Definition sameLoan (key : string) (before after : BankData) : Prop :=
  Obj.get (loans after) key = Obj.get (loans before) key
  /\ Obj.get (loanTransactions after) key = Obj.get (loanTransactions before) key.


(** The replies by which a mutating command refuses to act. *)
Definition isRejection (r : Reply) : bool :=
  match r with
  | Usage _ | AmountMustBePositive | CannotWithdraw _ _ _ | LenderCannotBeEmpty
  | NoUnresolvedLoan _ _ | MultipleUnresolvedLoans _ _ _ _ | LoanNotFound _
  | LoanAlreadyResolved _ | LoanResolvedNoAccrual _ | NotBorrowersLoan _ _ => true
  | _ => false
  end.

(** The reading of the mutation gate under which only a success is saved:
    the gate is free afterwards, and an invocation that ends in a rejection
    writes no snapshot. *)
Definition savesOnlyOnSuccess (env : Env) (w : World) (message : Message)
    (primaryCommand : string) (args : list string) : Prop :=
  let r := processCommand env w message primaryCommand args in
  busy (world r) = false
  /\ forall reply,
       In (Sent reply) (trace r) -> isRejection reply = true ->
       savedDocuments (trace r) = [].




(** ** The loan listings: [debt] and [debtors] *)

(** [a === b] between a property that may be missing and a string. *)
Definition strictEq (a b : jsval) : bool :=
  match a, b with
  | JUndefined, JUndefined => true
  | JNull, JNull => true
  | JNumber x, JNumber y => x =? y
  | JString x, JString y => String.eqb x y
  | _, _ => false
  end.

(** An element of [openLoans]: [{ loanId, lenderName, balance }] in
    [debtCommand], [{ loanId, borrowerName, balance }] in [debtorsCommand]. *)
Record LoanLine : Type := mkLoanLine {
  lineLoanId : string;
  lineParty : string;
  lineBalance : Z }.

(** What the two listings send: "No unresolved loans ..." or the lines, one
    per loan with the note looked up in [bankData.loans], and the total. *)
Inductive ListingReply : Type :=
| NoUnresolvedLoans (targetName : string)
| UnresolvedLoans (targetName : string) (lines : list (LoanLine * string)) (total : Z).

(** The loans that are not resolved, as [Object.entries] gives them. *)
Definition unresolvedEntries (bankData : BankData) : list (string * Loan.t) :=
  filter (fun e => negb (String.eqb (Loan.status (snd e)) "resolved"))
    (Obj.entries (loans bankData)).

(** [loan && loan.note ? loan.note : ""] for [bankData.loans[loanId]]. *)
Definition noteOf (bankData : BankData) (loanId : string) : string :=
  match Obj.get (loans bankData) loanId with
  | Some loan => Loan.note loan
  | None => ""
  end.

(** [openLoans.reduce((s, l) => s + l.balance, 0)]. *)
Definition totalOf (openLoans : list LoanLine) : Z :=
  fold_left (fun s l => s + lineBalance l) openLoans 0.

Definition listingReply (bankData : BankData) (targetName : string)
    (openLoans : list LoanLine) : ListingReply :=
  if (List.length openLoans =? 0)%nat then NoUnresolvedLoans targetName
  else UnresolvedLoans targetName
         (map (fun l => (l, noteOf bankData (lineLoanId l))) openLoans)
         (totalOf openLoans).

(** The name [debtCommand] and [debtorsCommand] list for, and the user when
    the name comes from the author or a mention. *)
Definition listingTarget (bankData : BankData) (message : Message)
    (args : list string) : option User * string :=
  if (List.length args =? 0)%nat then
    (Some (author message), getDefaultNameForUser bankData (author message))
  else
    match mentions message with
    | targetUser :: _ => (Some targetUser, getDefaultNameForUser bankData targetUser)
    | [] => (None, JsString.trim (JsVal.toString (arg args 0)))
    end.



Definition debtorsOpenLoans (bankData : BankData) (targetUser : option User)
    (targetName : string) : list LoanLine :=
  JsArray.sortDesc lineBalance
    (filter (fun x => 0 <? lineBalance x)
       (map (fun e =>
               mkLoanLine (fst e) (orString (Loan.borrowerName (snd e)) "Unknown")
                          (orZero (Some (Loan.balance (snd e)))))
          (filter (fun e =>
                     match targetUser with
                     | Some u => strictEq (Loan.prop (snd e) "lenderId")
                                          (JString (userId u))
                     | None => eqName (JString (Loan.lenderName (snd e)))
                                      (JString targetName)
                     end)
             (unresolvedEntries bankData)))).

(** [debtorsCommand]: it writes nothing and returns its only send. *)
Definition debtorsCommand (bankData : BankData) (message : Message)
    (args : list string) : ListingReply :=
  let '(targetUser, targetName) := listingTarget bankData message args in
  listingReply bankData targetName (debtorsOpenLoans bankData targetUser targetName).

(** ** Vocabulary of the further properties *)

(** [after] is [before] with entries appended. *)
Definition extends {A : Type} (before after : list A) : Prop :=
  exists added, after = before ++ added.

(** No white space in a string. *)
Fixpoint noWhite (s : string) : bool :=
  match s with
  | EmptyString => true
  | String c r => negb (JsString.is_white c) && noWhite r
  end.

(** No space character in a string. *)
Fixpoint noSpace (s : string) : bool :=
  match s with
  | EmptyString => true
  | String c r => negb (Ascii.eqb c " ") && noSpace r
  end.

(** What every loan record the commands write satisfies. *)
Definition loanWellFormed (loan : Loan.t) : Prop :=
  0 <= Loan.balance loan
  /\ (Loan.status loan = "open" \/ Loan.status loan = "resolved")
  /\ (Loan.status loan = "resolved" -> Loan.balance loan = 0)
  /\ Loan.borrowerName loan <> ""
  /\ JsString.trim (Loan.lenderName loan) <> "".

Definition loansWellFormed (bankData : BankData) : Prop :=
  forall key loan,
    In (key, loan) (Obj.entries (loans bankData)) ->
    loanWellFormed loan /\ isSome (Obj.get (loanTransactions bankData) key) = true.




(** Both logs after a command function, against the logs before. *)
Definition logsExtend (before after : BankData) : Prop :=
  forall key,
    extends (orNil (Obj.get (transactions before) key))
            (orNil (Obj.get (transactions after) key))
    /\ extends (orNil (Obj.get (loanTransactions before) key))
               (orNil (Obj.get (loanTransactions after) key)).

(** The entries the account ledger writes, and the entries the loan engine
    writes. *)
Definition ledgerEntry (t : Tx.t) : Prop :=
  (Tx.type t = "deposit" \/ Tx.type t = "withdraw") /\ 0 <= Tx.amount t.

Definition loanEntry (t : Tx.t) : Prop :=
  ((Tx.type t = "loan" \/ Tx.type t = "repay" \/ Tx.type t = "accrue")
   /\ 0 <= Tx.amount t)
  \/ (Tx.type t = "resolve" /\ Tx.amount t = 0 /\ Tx.note t = "Loan resolved").

Definition logsWellTyped (bankData : BankData) : Prop :=
  (forall key log, In (key, log) (Obj.entries (transactions bankData)) ->
                   Forall ledgerEntry log)
  /\ (forall key log, In (key, log) (Obj.entries (loanTransactions bankData)) ->
                      Forall loanEntry log).


(** * Properties *)

(** ** Objects: reading after writing *)

Section ObjFacts.
Context {V : Type}.

Lemma get_set_same (o : obj V) (k : string) (v : V) :
  Obj.get (Obj.set o k v) k = Some v.
Proof.
  induction o as [| [k' v'] r IH]; simpl.
  - now rewrite String.eqb_refl.
  - destruct (String.eqb k' k) eqn:E; simpl; rewrite E; auto.
Qed.

Lemma get_set_other (o : obj V) (k k' : string) (v : V) :
  k <> k' -> Obj.get (Obj.set o k v) k' = Obj.get o k'.
Proof.
  intros Hne. induction o as [| [k0 v0] r IH]; simpl.
  - destruct (String.eqb_spec k k'); congruence.
  - destruct (String.eqb_spec k0 k) as [-> | Hk]; simpl.
    + destruct (String.eqb_spec k k'); congruence.
    + now rewrite IH.
Qed.
End ObjFacts.

(** ** Amounts *)

Lemma orZero_some (b : Z) : orZero (Some b) = b.
Proof. unfold orZero. destruct (Z.eqb_spec b 0); congruence. Qed.

(** What [parseAmount] accepts: the floor of a finite number above zero. *)
Lemma parseAmount_some (str : jsval) (amount : Z) :
  parseAmount str = Some amount ->
  exists q : Q,
    JsVal.toNumber str = Fin q /\ (0 < q)%Q /\ amount = Qfloor q.
Proof.
  unfold parseAmount.
  destruct (JsVal.truthy str); simpl; [| discriminate].
  destruct (JsVal.toNumber str) as [| | | q]; simpl; try discriminate.
  destruct (Qle_bool q 0) eqn:E; simpl; [discriminate |].
  intros [= <-]. exists q. repeat split.
  apply Qnot_le_lt. intros Hle. apply Qle_bool_iff in Hle. congruence.
Qed.

(** An accepted amount is never negative: flooring keeps it at or above 0. *)
Lemma parseAmount_nonneg (str : jsval) (amount : Z) :
  parseAmount str = Some amount -> 0 <= amount.
Proof.
  intros H. destruct (parseAmount_some _ _ H) as (q & _ & Hq & ->).
  change 0 with (Qfloor 0). apply Qfloor_resp_le. now apply Qlt_le_weak.
Qed.

(** An accepted amount is at least 1 exactly when the number read is. *)
Lemma parseAmount_positive_iff (str : jsval) (amount : Z) :
  parseAmount str = Some amount ->
  forall q, JsVal.toNumber str = Fin q -> (1 <= amount <-> (1 <= q)%Q).
Proof.
  intros H q Hq. destruct (parseAmount_some _ _ H) as (q' & Hq' & _ & ->).
  rewrite Hq in Hq'. injection Hq' as <-. split; intros Hle.
  - apply Qle_trans with (inject_Z (Qfloor q)); [| apply Qfloor_le].
    change 1%Q with (inject_Z 1). now rewrite <- Zle_Qle.
  - change 1 with (Qfloor 1). now apply Qfloor_resp_le.
Qed.

(** ** C2: amounts the commands accept *)

(** C2.  The claim says every accepted amount is at least 1.  [parseAmount]
    tests [n <= 0] before it floors, so a number strictly between 0 and 1 is
    accepted and floors to 0: [!deposit 0.5 tip] is acknowledged as a deposit
    of 0 GP and an entry of amount 0 is appended to the log. *)
Theorem deposit_of_half_records_zero :
  parseAmount (JString "0.5") = Some 0
  /\ (let r := processCommand Scenario.env Scenario.fresh Scenario.fromVani
                 "deposit" ["0.5"; "tip"] in
      hd_error (trace r) = Some (Sent (Deposited 0 "Vani" 0 0))
      /\ accountLog (store (world r)) "Vani"
         = [Tx.mk (isoNow Scenario.env) "deposit" 0 "1" "tip"]).
Proof. vm_compute. repeat split. Qed.

(** ** C3: withdrawals *)









(** ** C4: the balance of an account against its deposits and withdrawals *)




(** The replies that end the search for a loan are rejections of three kinds. *)
Lemma resolveTarget_rejection command bankData borrowerName targetArg r :
  resolveTarget command bankData borrowerName targetArg = inl r ->
  r = LenderCannotBeEmpty
  \/ (exists l, r = NoUnresolvedLoan borrowerName l)
  \/ (exists l ms, r = MultipleUnresolvedLoans command borrowerName l ms).
Proof.
  unfold resolveTarget.
  destruct (isLoanId bankData targetArg).
  - destruct (normalizeLoanId targetArg); discriminate.
  - destruct (String.eqb _ ""); [intros [= <-]; auto |].
    destruct (findOpenLoans _ _ _) as [| m [| m' ms]]; intros [= <-]; eauto.
Qed.

Ltac break_match :=
  match goal with
  | |- context [match ?x with _ => _ end] => destruct x eqn:?
  end.

Ltac untouched :=
  repeat break_match;
  try (repeat split; simpl; reflexivity).

Lemma ledgerUntouched_returnSend_rejection command env bankData borrowerName targetArg r :
  resolveTarget command bankData borrowerName targetArg = inl r ->
  ledgerUntouched bankData (returnSend env bankData r).
Proof.
  intros H. apply resolveTarget_rejection in H.
  destruct H as [-> | [[l ->] | (l & ms & ->)]]; repeat split.
Qed.

Lemma loanCommand_ledger env bankData message args :
  ledgerUntouched bankData (loanCommand env bankData message args).
Proof. unfold loanCommand. untouched. Qed.

Lemma repayCommand_ledger env bankData message args :
  ledgerUntouched bankData (repayCommand env bankData message args).
Proof.
  unfold repayCommand. untouched.
  eapply ledgerUntouched_returnSend_rejection; eassumption.
Qed.

Lemma accrueCommand_ledger env bankData message args :
  ledgerUntouched bankData (accrueCommand env bankData message args).
Proof.
  unfold accrueCommand. untouched.
  eapply ledgerUntouched_returnSend_rejection; eassumption.
Qed.














(** ** Loans: reading after writing *)

Lemma getLoan_setLoan_same bankData loanId loan :
  getLoan (setLoan bankData loanId loan) loanId = Some loan.
Proof. unfold getLoan, setLoan. simpl. apply get_set_same. Qed.

Lemma getLoan_recordLoanTransaction env bankData loanId type amount actorId note other :
  getLoan (recordLoanTransaction env bankData loanId type amount actorId note) other
  = getLoan bankData other.
Proof. reflexivity. Qed.

Lemma loanLog_setLoan bankData loanId loan other :
  loanLog (setLoan bankData loanId loan) other = loanLog bankData other.
Proof. reflexivity. Qed.

Lemma loanLog_recordLoanTransaction_same env bankData loanId type amount actorId note :
  loanLog (recordLoanTransaction env bankData loanId type amount actorId note) loanId
  = loanLog bankData loanId ++ [Tx.mk (isoNow env) type amount actorId note].
Proof. unfold loanLog, recordLoanTransaction. simpl. now rewrite get_set_same. Qed.

(** ** C5: the effect of a repayment *)



(** ** C6: a resolved loan is final *)
















(** ** C1: repaying or accruing by lender name *)

(** What [findOpenLoans] selects: the loans that are not resolved and whose
    two names equal its two parameters up to case and surrounding space. *)
Lemma findOpenLoans_spec bankData borrowerName lenderName loan :
  In loan (findOpenLoans bankData borrowerName lenderName) <->
  exists key,
    In (key, loan) (Obj.entries (loans bankData))
    /\ Loan.status loan <> "resolved"
    /\ eqName (JString (Loan.borrowerName loan)) borrowerName = true
    /\ eqName (JString (Loan.lenderName loan)) lenderName = true.
Proof.
  unfold findOpenLoans. rewrite in_map_iff. split.
  - intros [[key l] [<- Hin]]. apply filter_In in Hin. destruct Hin as [Hin Hnames].
    apply filter_In in Hin. destruct Hin as [Hin Hopen]. simpl in *.
    apply andb_true_iff in Hnames. destruct Hnames as [Hb Hl].
    exists key. repeat split; try assumption.
    intros Hres. rewrite Hres in Hopen. discriminate.
  - intros (key & Hin & Hopen & Hb & Hl). exists (key, loan). split; [reflexivity |].
    apply filter_In. split; [apply filter_In; split; [assumption |] |]; simpl.
    + destruct (String.eqb_spec (Loan.status loan) "resolved");
        [contradiction | reflexivity].
    + now rewrite Hb, Hl.
Qed.

(** The call of the commands, with an object and no second argument, selects
    no loan that has a lender. *)
Lemma findOpenLoans_as_called bankData borrower lender loan :
  In loan
     (findOpenLoans bankData
        (JObject [ ("borrowerName", JString borrower); ("lenderName", JString lender) ])
        JUndefined) ->
  JsString.trim (Loan.lenderName loan) = ""
  /\ JsString.toLowerCase (JsString.trim (Loan.borrowerName loan)) = "[object object]".
Proof.
  intros H. apply findOpenLoans_spec in H. destruct H as (key & _ & _ & Hb & Hl).
  unfold eqName in Hb, Hl. apply String.eqb_eq in Hb, Hl.
  assert (Hb' : JsString.toLowerCase (JsString.trim (Loan.borrowerName loan))
                = "[object object]").
  { destruct (Loan.borrowerName loan) eqn:E; [discriminate Hb | exact Hb]. }
  split; [| exact Hb'].
  destruct (Loan.lenderName loan) as [| c s] eqn:E; [reflexivity |].
  change (JsString.toLowerCase (JsString.trim (String c s)) = "") in Hl.
  destruct (JsString.trim (String c s)); [reflexivity | discriminate Hl].
Qed.

(** A loan record has no property [loanId]. *)
Lemma loan_has_no_loanId (loan : Loan.t) : Loan.prop loan "loanId" = JUndefined.
Proof. reflexivity. Qed.

(** C1.  The claim says a target that is not a loan id is matched as a
    lender name against the open loans.  After [!loan 100 Vixil Tuning cost]
    by Vani there is exactly one open loan of borrower Vani and lender Vixil,
    and [findOpenLoans] given the two names selects it; but [!repay 50 Vixil]
    and [!accrue 50 Vixil] answer that no unresolved loan was found and leave
    the loan as it was, because the commands hand [findOpenLoans] a single
    object, which matches no name.  Nor does a selected loan carry the id
    the commands read from it. *)
Theorem repay_by_lender_name_finds_nothing :
  let bankData := store Scenario.withLoan in
  map Loan.balance (findOpenLoans bankData (JString "Vani") (JString "Vixil")) = [100]
  /\ isLoanId bankData (JString "Vixil") = false
  /\ repayCommand Scenario.env bankData Scenario.fromVani ["50"; "Vixil"]
     = returnSend Scenario.env bankData (NoUnresolvedLoan "Vani" "Vixil")
  /\ accrueCommand Scenario.env bankData Scenario.fromVani ["50"; "Vixil"]
     = returnSend Scenario.env bankData (NoUnresolvedLoan "Vani" "Vixil")
  /\ map (fun m => Loan.prop m "loanId")
         (findOpenLoans bankData (JString "Vani") (JString "Vixil"))
     = [JUndefined].
Proof. vm_compute. repeat split. Qed.

(** ** C7: the debt leaderboard *)

(** A row of [getTopDebtEntries] has no property [name], whatever the store. *)
Lemma debt_row_has_no_name (row : DebtRow.t) : DebtRow.prop row "name" = JUndefined.
Proof. reflexivity. Qed.



(** The ranking is sorted, descending, and is a rearrangement of its input. *)
Lemma insertDesc_perm (A : Type) (key : A -> Z) (x : A) (l : list A) :
  Permutation (JsArray.insertDesc key x l) (x :: l).
Proof.
  induction l as [| y r IH]; simpl; [reflexivity |].
  destruct (key y <=? key x); [reflexivity |].
  rewrite IH. apply perm_swap.
Qed.

Lemma sortDesc_perm (A : Type) (key : A -> Z) (l : list A) :
  Permutation (JsArray.sortDesc key l) l.
Proof.
  induction l as [| x r IH]; simpl; [reflexivity |].
  rewrite insertDesc_perm. now constructor.
Qed.






(** C7.  The claim says every entry of the debt ranking carries the
    borrower's name.  With one open loan of 100 owed by Vani, the ranking is
    one row holding the total 100 and nothing else, and the leaderboard,
    which prints [row.name], prints [undefined] for the borrower. *)
Theorem debt_ranking_drops_borrower_name :
  let bankData := store Scenario.withLoan in
  debtByBorrower bankData = [("Vani", DebtRow.mk 100)]
  /\ getTopDebtEntries bankData 10 = [DebtRow.mk 100]
  /\ map DebtRow.toObject (getTopDebtEntries bankData 10)
     = [JObject [("debt", JNumber 100)]]
  /\ events (leaderboardCommand Scenario.env bankData ["10"])
     = [Sent (Leaderboards [] [(JUndefined, JNumber 100)])].
Proof. vm_compute. repeat split. Qed.

(** ** C10: the number of entries [history] shows *)

Lemma floor_within_20 (q : Q) :
  negb (Qle_bool q 0) && Qle_bool q (inject_Z 20) = true -> 0 <= Qfloor q <= 20.
Proof.
  intros H. apply andb_true_iff in H. destruct H as [Hpos Hle].
  apply Qle_bool_iff in Hle. apply negb_true_iff in Hpos. split.
  - change 0 with (Qfloor 0). apply Qfloor_resp_le. apply Qlt_le_weak.
    apply Qnot_le_lt. intros Hq. apply Qle_bool_iff in Hq. congruence.
  - rewrite <- (Qfloor_Z 20). now apply Qfloor_resp_le.
Qed.

(** The count is 5 or the floor of a number above 0 and at most 20: it lies
    between 0 and 20, and 0 is possible. *)
Lemma historyArguments_count bankData message args :
  0 <= snd (historyArguments bankData message args) <= 20.
Proof.
  unfold historyArguments.
  destruct (List.length args =? 0)%nat; [simpl; lia |].
  destruct (firstIsNumber message args); simpl.
  - destruct (JsVal.toNumber (arg args 0)) as [| | | q]; simpl; try lia.
    destruct (negb (Qle_bool q 0) && Qle_bool q (inject_Z 20)) eqn:E; [| lia].
    now apply floor_within_20.
  - destruct (JsVal.truthy (arg args 1)); [| lia].
    destruct (JsVal.toNumber (arg args 1)) as [| | | q]; simpl; try lia.
    destruct (negb (Qle_bool q 0) && Qle_bool q (inject_Z 20)) eqn:E; [| lia].
    now apply floor_within_20.
Qed.

Lemma sliceFrom_last (A : Type) (count : Z) (a : list A) :
  1 <= count -> (List.length (JsArray.sliceFrom (- count) a) <= Z.to_nat count)%nat.
Proof.
  intros H. unfold JsArray.sliceFrom.
  destruct (Z.ltb_spec (- count) 0); [| lia].
  rewrite length_skipn. lia.
Qed.

(** With a count of 1 or more, [history] shows at most 20 entries. *)
Lemma history_capped_when_count_positive bankData message args :
  snd (historyArguments bankData message args) <> 0 ->
  (List.length (historyRecent bankData message args) <= 20)%nat.
Proof.
  intros Hne. unfold historyRecent.
  pose proof (historyArguments_count bankData message args) as Hrange.
  destruct (historyArguments bankData message args) as [accountName count].
  simpl in *.
  etransitivity; [apply sliceFrom_last; lia | lia].
Qed.

(** C10.  The claim says one call of [history] never returns more than 20
    entries.  The count is floored after the test [n > 0 && n <= 20], so
    [!history 0.5] has count 0, and [list.slice(-0)] is the whole list: on an
    account with 21 entries all 21 are shown. *)
Theorem history_of_half_shows_everything :
  let bankData := store Scenario.withHistory in
  List.length (accountLog bankData "Vani") = 21%nat
  /\ historyArguments bankData Scenario.fromVani ["0.5"] = ("Vani", 0)
  /\ List.length (historyRecent bankData Scenario.fromVani ["0.5"]) = 21%nat
  /\ events (historyCommand Scenario.env bankData Scenario.fromVani ["0.5"])
     = [Sent (LastTransactions "Vani" (accountLog bankData "Vani"))].
Proof. vm_compute. repeat split. Qed.

(** ** C8: the busy gate and the snapshot *)

(** A mutating command sends exactly one reply and saves nothing itself. *)
Lemma commandFunction_events env message primaryCommand args bankData :
  exists reply,
    events (commandFunction env message primaryCommand args bankData) = [Sent reply].
Proof.
  unfold commandFunction, depositCommand, withdrawCommand, loanCommand,
    repayCommand, accrueCommand.
  repeat break_match; eexists; reflexivity.
Qed.

Lemma processCommand_gated env w message primaryCommand args :
  In primaryCommand mutatingCommands ->
  processCommand env w message primaryCommand args
  = gated env w (commandFunction env message primaryCommand args).
Proof.
  intros Hin. simpl in Hin.
  destruct Hin as [<- | [<- | [<- | [<- | [<- | []]]]]]; reflexivity.
Qed.

(** The claim fails at a refused withdrawal: [!withdraw 5 potions] on an
    empty account is answered "Cannot withdraw" and the snapshot is written
    all the same. *)
Lemma rejected_withdrawal_is_saved :
  trace (processCommand Scenario.env Scenario.fresh Scenario.fromVani
           "withdraw" ["5"; "potions"])
  = [Sent (CannotWithdraw 5 "Vani" 0); Saved (saveData (store Scenario.fresh))]
  /\ ~ savesOnlyOnSuccess Scenario.env Scenario.fresh Scenario.fromVani
         "withdraw" ["5"; "potions"].
Proof.
  split; [reflexivity |].
  intros [_ H]. specialize (H (CannotWithdraw 5 "Vani" 0)).
  assert (Hsaved : savedDocuments
                     (trace (processCommand Scenario.env Scenario.fresh
                               Scenario.fromVani "withdraw" ["5"; "potions"]))
                   = []).
  { apply H; [left; reflexivity | reflexivity]. }
  discriminate Hsaved.
Qed.

(** C8, amended.  A mutating command that finds the gate free leaves it free
    on every exit, also when the command function throws.  The snapshot is
    saved exactly when the command function returns without throwing,
    whatever it replied, a rejection included; when it throws nothing is
    saved and the data file is as before.  A mutating command that finds the
    gate taken only answers "busy": it changes nothing, saves nothing and
    leaves the gate to its holder. *)
Theorem gate_released_and_saved_unless_thrown
    (env : Env) (w : World) (message : Message) (primaryCommand : string)
    (args : list string) :
  In primaryCommand mutatingCommands ->
  let out := commandFunction env message primaryCommand args (store w) in
  let r := processCommand env w message primaryCommand args in
  (busy w = true -> world r = w /\ trace r = [Sent BusyTryAgain])
  /\ (busy w = false ->
        busy (world r) = false
        /\ store (world r) = bank out
        /\ rejected r = threw out
        /\ exists reply,
             events out = [Sent reply]
             /\ (threw out = true ->
                   trace r = [Sent reply] /\ dataFile (world r) = dataFile w)
             /\ (threw out = false ->
                   trace r = [Sent reply; Saved (saveData (bank out))])).
Proof.
  intros Hin out r. subst out r.
  rewrite processCommand_gated by assumption.
  destruct (commandFunction_events env message primaryCommand args (store w))
    as [reply Hev].
  unfold gated. split; intros Hgate; rewrite Hgate; [split; reflexivity |].
  destruct (threw (commandFunction env message primaryCommand args (store w))) eqn:Hthrew;
    cbn [world busy store rejected trace dataFile];
    repeat (split; [reflexivity |]); exists reply; rewrite Hev;
    repeat split; try reflexivity; discriminate.
Qed.

(** The theorem at the refused withdrawal: the gate is free afterwards and
    the snapshot follows the refusal. *)
Lemma gate_released_and_saved_unless_thrown_witness :
  busy (world (processCommand Scenario.env Scenario.fresh Scenario.fromVani
                 "withdraw" ["5"; "potions"])) = false
  /\ store (world (processCommand Scenario.env Scenario.fresh Scenario.fromVani
                     "withdraw" ["5"; "potions"]))
     = bank (commandFunction Scenario.env Scenario.fromVani "withdraw"
               ["5"; "potions"] (store Scenario.fresh)).
Proof.
  pose proof (proj2 (gate_released_and_saved_unless_thrown Scenario.env
                       Scenario.fresh Scenario.fromVani "withdraw"
                       ["5"; "potions"] (or_intror (or_introl eq_refl)))
                eq_refl) as H.
  split; [exact (proj1 H) | exact (proj1 (proj2 H))].
Defined.

(** ** C9: loading and saving the snapshot *)



(** * Further properties of the code *)

(** ** Strings: trimming and case folding *)

Lemma trimStart_head (s : string) (c : ascii) (r : string) :
  JsString.trimStart s = String c r -> JsString.is_white c = false.
Proof.
  induction s as [| c' r' IH]; simpl; [discriminate |].
  destruct (JsString.is_white c') eqn:E; [exact IH |].
  intros [= <- <-]. exact E.
Qed.

Lemma trimStart_fixed (c : ascii) (r : string) :
  JsString.is_white c = false -> JsString.trimStart (String c r) = String c r.
Proof. intros H. simpl. now rewrite H. Qed.

Lemma trimEnd_keeps_head (c : ascii) (r : string) :
  JsString.is_white c = false ->
  exists r', JsString.trimEnd (String c r) = String c r'.
Proof.
  intros H. simpl. destruct (JsString.trimEnd r); [rewrite H |]; eauto.
Qed.

Lemma trimEnd_idempotent (s : string) :
  JsString.trimEnd (JsString.trimEnd s) = JsString.trimEnd s.
Proof.
  induction s as [| c r IH]; [reflexivity |]. simpl.
  destruct (JsString.trimEnd r) as [| c' r'] eqn:E.
  - destruct (JsString.is_white c) eqn:W; [reflexivity |]. simpl. now rewrite W.
  - simpl in *. rewrite IH. reflexivity.
Qed.

(** Trimming strips everything there is to strip. *)
Lemma trim_idempotent (s : string) :
  JsString.trim (JsString.trim s) = JsString.trim s.
Proof.
  unfold JsString.trim.
  destruct (JsString.trimStart s) as [| c r] eqn:E; [reflexivity |].
  pose proof (trimStart_head _ _ _ E) as W.
  destruct (trimEnd_keeps_head c r W) as [r' Hr']. rewrite Hr'.
  rewrite (trimStart_fixed c r' W), <- Hr'. apply trimEnd_idempotent.
Qed.

(** A trimmed string that is not empty starts with a character that is not
    white space. *)
Lemma trim_head (s : string) (c : ascii) (r : string) :
  JsString.trim s = String c r -> JsString.is_white c = false.
Proof.
  unfold JsString.trim.
  destruct (JsString.trimStart s) as [| c' r'] eqn:E; [discriminate |].
  pose proof (trimStart_head _ _ _ E) as W.
  destruct (trimEnd_keeps_head c' r' W) as [r'' Hr'']. rewrite Hr''.
  now intros [= <- <-].
Qed.

Lemma lower_idempotent (c : ascii) : JsString.lower (JsString.lower c) = JsString.lower c.
Proof. destruct c as [[] [] [] [] [] [] [] []]; reflexivity. Qed.

Lemma is_white_lower (c : ascii) : JsString.is_white (JsString.lower c) = JsString.is_white c.
Proof. destruct c as [[] [] [] [] [] [] [] []]; reflexivity. Qed.

Lemma toLowerCase_idempotent (s : string) :
  JsString.toLowerCase (JsString.toLowerCase s) = JsString.toLowerCase s.
Proof.
  induction s as [| c r IH]; simpl; [reflexivity |].
  now rewrite lower_idempotent, IH.
Qed.

Lemma trimStart_toLowerCase (s : string) :
  JsString.trimStart (JsString.toLowerCase s)
  = JsString.toLowerCase (JsString.trimStart s).
Proof.
  induction s as [| c r IH]; simpl; [reflexivity |].
  rewrite is_white_lower. destruct (JsString.is_white c); [exact IH | reflexivity].
Qed.

Lemma trimEnd_toLowerCase (s : string) :
  JsString.trimEnd (JsString.toLowerCase s)
  = JsString.toLowerCase (JsString.trimEnd s).
Proof.
  induction s as [| c r IH]; simpl; [reflexivity |].
  rewrite IH, is_white_lower.
  destruct (JsString.trimEnd r); simpl; [destruct (JsString.is_white c) |]; reflexivity.
Qed.

Lemma trim_toLowerCase (s : string) :
  JsString.trim (JsString.toLowerCase s) = JsString.toLowerCase (JsString.trim s).
Proof.
  unfold JsString.trim. now rewrite trimStart_toLowerCase, trimEnd_toLowerCase.
Qed.

Lemma trimEnd_length (s : string) :
  (String.length (JsString.trimEnd s) <= String.length s)%nat.
Proof.
  induction s as [| c r IH]; simpl; [lia |].
  destruct (JsString.trimEnd r); [destruct (JsString.is_white c) |]; simpl in *; lia.
Qed.

Lemma trimStart_length (s : string) :
  (String.length (JsString.trimStart s) <= String.length s)%nat.
Proof.
  induction s as [| c r IH]; simpl; [lia |].
  destruct (JsString.is_white c); simpl; lia.
Qed.

Lemma trim_length (s : string) :
  (String.length (JsString.trim s) <= String.length s)%nat.
Proof.
  unfold JsString.trim.
  etransitivity; [apply trimEnd_length | apply trimStart_length].
Qed.

Lemma substring0_length (n : nat) (s : string) :
  (String.length (JsString.substring0 n s) <= n)%nat.
Proof.
  unfold JsString.substring0. revert s.
  induction n as [| n IH]; intros [| c r]; simpl; try lia.
  specialize (IH r). lia.
Qed.

Lemma substring0_short (n : nat) (s : string) :
  (String.length s <= n)%nat -> JsString.substring0 n s = s.
Proof.
  unfold JsString.substring0. revert s.
  induction n as [| n IH]; intros [| c r] H; simpl in *; try reflexivity; try lia.
  rewrite IH by lia. reflexivity.
Qed.

Lemma substring0_head (n : nat) (c : ascii) (r : string) :
  JsString.substring0 (S n) (String c r) = String c (JsString.substring0 n r).
Proof. reflexivity. Qed.

(** ** Deposits *)



(** ** The ledger and the loans are kept apart *)

Lemma loans_untouched_by_deposit env bankData message args :
  let out := depositCommand env bankData message args in
  loans (bank out) = loans bankData
  /\ loanTransactions (bank out) = loanTransactions bankData
  /\ profiles (bank out) = profiles bankData.
Proof. unfold depositCommand. repeat break_match; repeat split. Qed.

Lemma loans_untouched_by_withdraw env bankData message args :
  let out := withdrawCommand env bankData message args in
  loans (bank out) = loans bankData
  /\ loanTransactions (bank out) = loanTransactions bankData
  /\ profiles (bank out) = profiles bankData.
Proof. unfold withdrawCommand. repeat break_match; repeat split. Qed.

Lemma profiles_untouched_by_loans env bankData message args :
  profiles (bank (loanCommand env bankData message args)) = profiles bankData
  /\ profiles (bank (repayCommand env bankData message args)) = profiles bankData
  /\ profiles (bank (accrueCommand env bankData message args)) = profiles bankData.
Proof.
  unfold loanCommand, repayCommand, accrueCommand.
  repeat split; repeat break_match; reflexivity.
Qed.

(** X2.  Loans are not mirrored in the accounts: [loan], [repay] and [accrue]
    never change an account balance or an account log, whatever their
    arguments and outcome; [deposit] and [withdraw] never change a loan or a
    loan log; and none of the five changes a name profile. *)
Theorem ledger_and_loans_are_separate
    (env : Env) (bankData : BankData) (message : Message) (args : list string)
    (primaryCommand : string) :
  let out := commandFunction env message primaryCommand args bankData in
  profiles (bank out) = profiles bankData
  /\ (primaryCommand = "deposit" \/ primaryCommand = "withdraw" ->
        loans (bank out) = loans bankData
        /\ loanTransactions (bank out) = loanTransactions bankData)
  /\ (primaryCommand <> "deposit" -> primaryCommand <> "withdraw" ->
        balances (bank out) = balances bankData
        /\ transactions (bank out) = transactions bankData).
Proof.
  unfold commandFunction.
  destruct (String.eqb_spec primaryCommand "deposit") as [-> | Hd].
  { destruct (loans_untouched_by_deposit env bankData message args) as (? & ? & ?).
    repeat split; auto; congruence. }
  destruct (String.eqb_spec primaryCommand "withdraw") as [-> | Hw].
  { destruct (loans_untouched_by_withdraw env bankData message args) as (? & ? & ?).
    repeat split; auto; congruence. }
  destruct (profiles_untouched_by_loans env bankData message args) as (Hl & Hr & Ha).
  destruct (String.eqb primaryCommand "loan");
    [| destruct (String.eqb primaryCommand "repay")];
    (split; [assumption |]); (split; [intros [? | ?]; congruence |]); intros _ _.
  - destruct (loanCommand_ledger env bankData message args) as (? & ? & _). now split.
  - destruct (repayCommand_ledger env bankData message args) as (? & ? & _). now split.
  - destruct (accrueCommand_ledger env bankData message args) as (? & ? & _). now split.
Qed.

(** ** Creating a loan *)

(** X3.  A [loan] command whose amount is accepted and whose lender is not
    blank stores, under the generated id, a loan with status ["open"], the
    amount as balance, the trimmed lender, the borrower (["Unknown"] when the
    name is empty) and the note; it appends one ["loan"] entry to that id's
    log, with the note or ["Loan created"]; and it leaves every loan and log
    under another id as they were.  With a blank lender it changes nothing. *)
Theorem loan_creates
    (env : Env) (bankData : BankData) (message : Message) (args : list string)
    (borrower : string) (amountArg lenderArg : jsval) (noteArgs : list string)
    (amount : Z) :
  loanArguments bankData message args = Some (borrower, amountArg, lenderArg, noteArgs) ->
  parseAmount amountArg = Some amount ->
  let lender := JsString.trim (JsVal.toString (JsVal.or lenderArg (JString ""))) in
  let note := JsString.join " " noteArgs in
  let loanId := JString (generateLoanId env) in
  let out := loanCommand env bankData message args in
  (lender = "" -> out = returnSend env bankData LenderCannotBeEmpty)
  /\ (lender <> "" ->
        getLoan (bank out) loanId
        = Some (Loan.mk (orString borrower "Unknown") lender amount "open"
                  (isoNow env) note)
        /\ loanLog (bank out) loanId
           = loanLog bankData loanId
             ++ [Tx.mk (isoNow env) "loan" amount (userId (author message))
                   (orString note "Loan created")]
        /\ events out
           = [Sent (LoanCreated (orString borrower "Unknown") lender amount note)]
        /\ (forall key, key <> generateLoanId env -> sameLoan key bankData (bank out))).
Proof.
  intros Hargs Hamount lender note loanId out. subst out.
  unfold loanCommand. rewrite Hargs, Hamount. fold lender. split; intros Hlender.
  - now rewrite Hlender.
  - destruct (String.eqb_spec lender "") as [| _]; [contradiction |].
    fold note. fold loanId. cbn [bank events returnSend].
    assert (Hsame : orString lender "Unknown" = lender).
    { unfold orString. destruct (String.eqb_spec lender ""); congruence. }
    assert (Hnote : orString note "" = note).
    { unfold orString. destruct (String.eqb_spec note ""); congruence. }
    rewrite Hsame, Hnote. repeat split.
    + now rewrite getLoan_recordLoanTransaction, getLoan_setLoan_same.
    + now rewrite loanLog_recordLoanTransaction_same, loanLog_setLoan.
    + simpl. apply get_set_other. congruence.
    + simpl. apply get_set_other. congruence.
Qed.

Lemma loan_creates_witness :
  getLoan (bank (loanCommand Scenario.env (store Scenario.fresh) Scenario.fromVani
                   ["100"; "Vixil"; "Tuning"; "cost"]))
          (JString (generateLoanId Scenario.env))
  = Some (Loan.mk "Vani" "Vixil" 100 "open" (isoNow Scenario.env) "Tuning cost").
Proof.
  apply (loan_creates Scenario.env (store Scenario.fresh) Scenario.fromVani
           ["100"; "Vixil"; "Tuning"; "cost"] "Vani" (JString "100") (JString "Vixil")
           ["Tuning"; "cost"] 100); [reflexivity | reflexivity | discriminate].
Defined.

(** ** Accruing *)



(** ** Targeting a loan by its id *)

(** [eqName] holds between a value and itself. *)
Lemma eqName_refl (a : jsval) : eqName a a = true.
Proof. unfold eqName. apply String.eqb_refl. Qed.

(** A target that normalizes to a key of [loans] is used as the loan id. *)
Lemma resolveTarget_by_id command bankData borrower targetArg id loan :
  normalizeLoanId targetArg = Some id ->
  Obj.get (loans bankData) id = Some loan ->
  isLoanId bankData targetArg = true
  /\ resolveTarget command bankData borrower targetArg = inr (JString id).
Proof.
  intros Hid Hloan.
  assert (H : isLoanId bankData targetArg = true).
  { unfold isLoanId. now rewrite Hid, Hloan. }
  split; [exact H |]. unfold resolveTarget. now rewrite H, Hid.
Qed.



(** ** A loan and its full repayment *)

(** What [loanCommand] leaves under the generated id. *)
Lemma loanCommand_stores env bankData message args borrower amountArg lenderArg
    noteArgs amount :
  loanArguments bankData message args = Some (borrower, amountArg, lenderArg, noteArgs) ->
  parseAmount amountArg = Some amount ->
  JsString.trim (JsVal.toString (JsVal.or lenderArg (JString ""))) <> "" ->
  let lender := JsString.trim (JsVal.toString (JsVal.or lenderArg (JString ""))) in
  let note := JsString.join " " noteArgs in
  let created := bank (loanCommand env bankData message args) in
  Obj.get (loans created) (generateLoanId env)
  = Some (Loan.mk (orString borrower "Unknown") lender amount "open" (isoNow env) note)
  /\ loanLog created (JString (generateLoanId env))
     = loanLog bankData (JString (generateLoanId env))
       ++ [Tx.mk (isoNow env) "loan" amount (userId (author message))
             (orString note "Loan created")].
Proof.
  intros Hargs Hamount Hlender lender note created. subst created.
  assert (Hl : lender <> "") by exact Hlender.
  unfold loanCommand. rewrite Hargs, Hamount. fold lender. fold note.
  destruct (String.eqb_spec lender "") as [E | _]; [contradiction |].
  assert (Hsame : orString lender "Unknown" = lender).
  { unfold orString. destruct (String.eqb_spec lender ""); congruence. }
  assert (Hnote : orString note "" = note).
  { unfold orString. destruct (String.eqb_spec note ""); congruence. }
  rewrite Hsame, Hnote. cbn [bank returnSend]. split.
  - simpl. apply get_set_same.
  - now rewrite loanLog_recordLoanTransaction_same, loanLog_setLoan.
Qed.

(** X6.  Creating a loan and then repaying, by the id it was given, at least
    the amount lent resolves it: the status becomes ["resolved"], the balance
    0, and the loan's log ends with the ["loan"] entry, the ["repay"] entry
    with the amount handed in and a ["resolve"] entry of amount 0, in this
    order.  The borrower stated on repayment has to equal the loan's up to
    case and surrounding space, and the id has to be one that
    [normalizeLoanId] leaves alone. *)
Theorem loan_then_full_repay_resolves
    (env env' : Env) (bankData : BankData) (message message' : Message)
    (args args' : list string) (borrower borrower' : string)
    (amountArg lenderArg amountArg' : jsval) (noteArgs : list string)
    (amount amount' : Z) :
  loanArguments bankData message args = Some (borrower, amountArg, lenderArg, noteArgs) ->
  parseAmount amountArg = Some amount ->
  JsString.trim (JsVal.toString (JsVal.or lenderArg (JString ""))) <> "" ->
  normalizeLoanId (JString (generateLoanId env)) = Some (generateLoanId env) ->
  targetArguments (bank (loanCommand env bankData message args)) message' args'
  = Some (borrower', amountArg', JString (generateLoanId env)) ->
  parseAmount amountArg' = Some amount' ->
  amount <= amount' ->
  eqName (JString (orString borrower "Unknown")) (JString borrower') = true ->
  let lender := JsString.trim (JsVal.toString (JsVal.or lenderArg (JString ""))) in
  let note := JsString.join " " noteArgs in
  let loanId := JString (generateLoanId env) in
  let out := repayCommand env' (bank (loanCommand env bankData message args))
               message' args' in
  events out = [Sent (Repaid amount' lender 0 amount (Some note) true)]
  /\ getLoan (bank out) loanId
     = Some (Loan.mk (orString borrower "Unknown") lender 0 "resolved"
               (isoNow env) note)
  /\ loanLog (bank out) loanId
     = loanLog bankData loanId
       ++ [ Tx.mk (isoNow env) "loan" amount (userId (author message))
              (orString note "Loan created");
            Tx.mk (isoNow env') "repay" amount' (userId (author message')) "";
            Tx.mk (isoNow env') "resolve" 0 (userId (author message'))
              "Loan resolved" ].
Proof.
  intros Hargs Hamount Hlender Hid Hargs' Hamount' Hle Hname lender note loanId out.
  subst out loanId.
  destruct (loanCommand_stores env bankData message args borrower amountArg lenderArg
              noteArgs amount Hargs Hamount Hlender) as [Hloan Hlog].
  fold lender note in Hloan, Hlog.
  set (created := bank (loanCommand env bankData message args)) in *.
  destruct (resolveTarget_by_id "repay" created borrower'
              (JString (generateLoanId env)) (generateLoanId env) _ Hid Hloan)
    as [_ Htarget].
  unfold repayCommand. rewrite Hargs', Hamount', Htarget.
  assert (Hget : getLoan created (JString (generateLoanId env))
                 = Some (Loan.mk (orString borrower "Unknown") lender amount "open"
                           (isoNow env) note)) by exact Hloan.
  rewrite Hget. cbn [Loan.status Loan.borrowerName Loan.balance Loan.note
                     Loan.lenderName].
  change (String.eqb "open" "resolved") with false. cbv iota.
  rewrite Hname. cbn [negb]. rewrite orZero_some.
  assert (Hpos0 : 0 <= amount) by now apply parseAmount_nonneg in Hamount.
  replace (Z.max 0 (amount - amount')) with 0 by lia.
  change (0 =? 0) with true. cbv iota.
  match goal with
  | |- context [isLoanId ?b (JString (generateLoanId env))] =>
      assert (Hstill : isLoanId b (JString (generateLoanId env)) = true)
  end.
  { unfold isLoanId. rewrite Hid. simpl. now rewrite get_set_same. }
  rewrite Hstill. cbn [events bank returnSend]. repeat split.
  - now rewrite getLoan_recordLoanTransaction, getLoan_setLoan_same.
  - rewrite loanLog_recordLoanTransaction_same, loanLog_setLoan,
      loanLog_recordLoanTransaction_same, loanLog_setLoan, Hlog.
    now rewrite <- !app_assoc.
Qed.

Lemma loan_then_full_repay_resolves_witness :
  events (repayCommand Scenario.later
            (bank (loanCommand Scenario.env (store Scenario.fresh) Scenario.fromVani
                     ["100"; "Vixil"; "Tuning"; "cost"]))
            Scenario.fromVani ["100"; Scenario.loanId])
  = [Sent (Repaid 100 "Vixil" 0 100 (Some "Tuning cost") true)].
Proof.
  apply (loan_then_full_repay_resolves Scenario.env Scenario.later
           (store Scenario.fresh) Scenario.fromVani Scenario.fromVani
           ["100"; "Vixil"; "Tuning"; "cost"] ["100"; Scenario.loanId]
           "Vani" "Vani" (JString "100") (JString "Vixil") (JString "100")
           ["Tuning"; "cost"] 100 100);
    try reflexivity; try discriminate.
Defined.

(** ** What every stored loan satisfies *)

Section ObjEntries.
Context {V : Type}.

Lemma get_in (o : obj V) (k : string) (v : V) :
  Obj.get o k = Some v -> In (k, v) o.
Proof.
  induction o as [| [k' v'] r IH]; simpl; [discriminate |].
  destruct (String.eqb_spec k' k) as [-> | _].
  - intros [= ->]. now left.
  - intros H. right. now apply IH.
Qed.

Lemma in_set (o : obj V) (k : string) (v : V) (e : string * V) :
  In e (Obj.set o k v) -> e = (k, v) \/ In e o.
Proof.
  induction o as [| [k' v'] r IH]; simpl.
  - intros [<- | []]. now left.
  - destruct (String.eqb_spec k' k) as [-> | _]; simpl.
    + intros [<- | H]; auto.
    + intros [<- | H]; auto. destruct (IH H); auto.
Qed.

Lemma isSome_set (o : obj V) (k k' : string) (v : V) :
  isSome (Obj.get o k') = true -> isSome (Obj.get (Obj.set o k v) k') = true.
Proof.
  intros H. destruct (String.eqb_spec k k') as [-> | Hne].
  - now rewrite get_set_same.
  - now rewrite get_set_other.
Qed.
End ObjEntries.

Lemma wellFormed_record env bankData loanId type amount actorId note :
  loansWellFormed bankData ->
  loansWellFormed (recordLoanTransaction env bankData loanId type amount actorId note).
Proof.
  intros Hwf key loan Hin. destruct (Hwf key loan Hin) as [Hloan Hlog].
  split; [exact Hloan |]. simpl. now apply isSome_set.
Qed.

Lemma wellFormed_set_record env bankData loanId loan type amount actorId note :
  loansWellFormed bankData ->
  loanWellFormed loan ->
  loansWellFormed
    (recordLoanTransaction env (setLoan bankData loanId loan) loanId type amount
       actorId note).
Proof.
  intros Hwf Hloan key loan' Hin. simpl in Hin. apply in_set in Hin.
  destruct Hin as [[= -> ->] | Hin].
  - split; [exact Hloan |]. simpl. now rewrite get_set_same.
  - destruct (Hwf key loan' Hin) as [Hl Hlog].
    split; [exact Hl |]. simpl. now apply isSome_set.
Qed.

Lemma wellFormed_frame before after :
  loans after = loans before ->
  loanTransactions after = loanTransactions before ->
  loansWellFormed before -> loansWellFormed after.
Proof. intros Hl Ht Hwf key loan. unfold Obj.entries. rewrite Hl, Ht. apply Hwf. Qed.

Lemma wellFormed_getLoan bankData loanId loan :
  loansWellFormed bankData -> getLoan bankData loanId = Some loan -> loanWellFormed loan.
Proof. intros Hwf H. apply get_in in H. now destruct (Hwf _ _ H). Qed.

Lemma loanCommand_wellFormed env bankData message args :
  loansWellFormed bankData ->
  loansWellFormed (bank (loanCommand env bankData message args)).
Proof.
  intros Hwf. unfold loanCommand.
  destruct (loanArguments bankData message args) as [[[[borrower amountArg] lenderArg] noteArgs] |];
    [| exact Hwf].
  destruct (parseAmount amountArg) as [amount |] eqn:Hamount; [| exact Hwf].
  set (lender := JsString.trim (JsVal.toString (JsVal.or lenderArg (JString "")))).
  destruct (String.eqb_spec lender "") as [| Hlender]; [exact Hwf |].
  cbn [bank returnSend]. apply wellFormed_set_record; [exact Hwf |].
  unfold loanWellFormed. cbn [Loan.balance Loan.status Loan.borrowerName Loan.lenderName].
  repeat split.
  - now apply parseAmount_nonneg in Hamount.
  - now left.
  - discriminate.
  - unfold orString. destruct (String.eqb_spec borrower ""); [discriminate | assumption].
  - unfold orString. destruct (String.eqb_spec lender ""); [contradiction |].
    subst lender. now rewrite trim_idempotent.
Qed.

Lemma repayCommand_wellFormed env bankData message args :
  loansWellFormed bankData ->
  loansWellFormed (bank (repayCommand env bankData message args)).
Proof.
  intros Hwf. unfold repayCommand.
  destruct (targetArguments bankData message args) as [[[borrower amountArg] targetArg] |];
    [| exact Hwf].
  destruct (parseAmount amountArg) as [amount |] eqn:Hamount; [| exact Hwf].
  destruct (resolveTarget "repay" bankData borrower targetArg) as [r | loanId];
    [exact Hwf |].
  destruct (getLoan bankData loanId) as [loan |] eqn:Hloan; [| exact Hwf].
  destruct (String.eqb_spec (Loan.status loan) "resolved") as [| Hopen]; [exact Hwf |].
  destruct (negb (eqName _ _)); [exact Hwf |].
  destruct (wellFormed_getLoan _ _ _ Hwf Hloan) as (Hbal & Hstatus & _ & Hb & Hl).
  rewrite orZero_some.
  assert (Hfirst : loanWellFormed
                     (Loan.withBalance loan (Z.max 0 (Loan.balance loan - amount)))).
  { unfold loanWellFormed. simpl. repeat split; try assumption; [lia | contradiction]. }
  destruct (Z.eqb_spec (Z.max 0 (Loan.balance loan - amount)) 0) as [Hzero | _];
    cbn [bank returnSend].
  - apply wellFormed_set_record; [now apply wellFormed_set_record |].
    unfold loanWellFormed. simpl. rewrite Hzero. repeat split; auto; lia.
  - now apply wellFormed_set_record.
Qed.

Lemma accrueCommand_wellFormed env bankData message args :
  loansWellFormed bankData ->
  loansWellFormed (bank (accrueCommand env bankData message args)).
Proof.
  intros Hwf. unfold accrueCommand.
  destruct (targetArguments bankData message args) as [[[borrower amountArg] targetArg] |];
    [| exact Hwf].
  destruct (parseAmount amountArg) as [amount |] eqn:Hamount; [| exact Hwf].
  destruct (resolveTarget "accrue" bankData borrower targetArg) as [r | loanId];
    [exact Hwf |].
  destruct (getLoan bankData loanId) as [loan |] eqn:Hloan; [| exact Hwf].
  destruct (String.eqb_spec (Loan.status loan) "resolved") as [| Hopen]; [exact Hwf |].
  destruct (negb (eqName _ _)); [exact Hwf |].
  destruct (wellFormed_getLoan _ _ _ Hwf Hloan) as (Hbal & Hstatus & _ & Hb & Hl).
  rewrite orZero_some. cbn [bank returnSend]. apply wellFormed_set_record; [exact Hwf |].
  apply parseAmount_nonneg in Hamount.
  unfold loanWellFormed. simpl. repeat split; try assumption; [lia | contradiction].
Qed.

Lemma gated_wellFormed env w command :
  loansWellFormed (store w) ->
  loansWellFormed (bank (command (store w))) ->
  loansWellFormed (store (world (gated env w command))).
Proof.
  intros Hwf H. unfold gated. destruct (busy w); [exact Hwf |].
  destruct (threw _); exact H.
Qed.

Lemma processCommand_wellFormed env w message primaryCommand args :
  loansWellFormed (store w) ->
  loansWellFormed (store (world (processCommand env w message primaryCommand args))).
Proof.
  intros Hwf. unfold processCommand.
  repeat match goal with
         | |- context [String.eqb primaryCommand ?c] =>
             destruct (String.eqb primaryCommand c)
         end;
    try (apply gated_wellFormed; [exact Hwf |]);
    first
      [ now apply loanCommand_wellFormed
      | now apply repayCommand_wellFormed
      | now apply accrueCommand_wellFormed
      | exact Hwf
      | apply wellFormed_frame with (before := store w); [| | exact Hwf];
        cbn [ungated world store];
        unfold depositCommand, withdrawCommand, setNameCommand, historyCommand,
          leaderboardCommand;
        repeat break_match; reflexivity ].
Qed.

Lemma run_wellFormed inputs : forall w evs,
  loansWellFormed (store w) ->
  loansWellFormed (store (fst (fold_left step inputs (w, evs)))).
Proof.
  induction inputs as [| i r IH]; intros w evs Hwf; simpl; [exact Hwf |].
  unfold step at 2. simpl.
  assert (Hstep : loansWellFormed
                    (store (fst (onMessage (inEnv i) w (inMessage i) (inCommand i)
                                   (inArgs i))))).
  { unfold onMessage.
    pose proof (processCommand_wellFormed (inEnv i) w (inMessage i) (inCommand i)
                  (inArgs i) Hwf) as H.
    destruct (rejected _); exact H. }
  destruct (onMessage _ _ _ _ _) as [w' evs']. now apply IH.
Qed.

(** X7.  Whatever messages are handled, every stored loan keeps a balance
    that is not negative, a status that is ["open"] or ["resolved"], a
    balance of 0 once it is resolved, a borrower name that is not empty, a
    lender name that is not blank, and a log of its own.  This holds from
    the empty store on, and from any store whose loans are of this kind. *)
Theorem loans_stay_well_formed (inputs : list Input) (w : World) :
  loansWellFormed (store w) ->
  loansWellFormed (store (fst (run inputs w))).
Proof. intros Hwf. unfold run. now apply run_wellFormed. Qed.

Lemma loans_stay_well_formed_witness :
  loansWellFormed
    (store (fst (run (Scenario.say "loan" ["100"; "Vixil"; "Tuning"; "cost"]
                      :: Scenario.say "repay" ["100"; Scenario.loanId]
                      :: Scenario.afterResolution)
                   Scenario.fresh))).
Proof.
  apply (loans_stay_well_formed _ Scenario.fresh).
  intros key loan [].
Defined.

(** ** Targeting a loan by the lender's name *)

(** In a store whose loans all have a lender, the search the commands run
    selects nothing. *)
Lemma findOpenLoans_as_called_empty bankData borrower lender :
  loansWellFormed bankData ->
  findOpenLoans bankData
    (JObject [ ("borrowerName", JString borrower); ("lenderName", JString lender) ])
    JUndefined
  = [].
Proof.
  intros Hwf.
  destruct (findOpenLoans _ _ _) as [| loan rest] eqn:E; [reflexivity |].
  assert (Hin : In loan
                  (findOpenLoans bankData
                     (JObject [ ("borrowerName", JString borrower);
                                ("lenderName", JString lender) ])
                     JUndefined)) by (rewrite E; now left).
  destruct (findOpenLoans_as_called _ _ _ _ Hin) as [Hblank _].
  apply findOpenLoans_spec in Hin. destruct Hin as (key & Hentry & _).
  destruct (Hwf key loan Hentry) as [(_ & _ & _ & _ & Hlender) _].
  contradiction.
Qed.

(** X8.  As long as every stored loan has a lender (which the commands keep
    true), a [repay] or [accrue] whose target is not a loan id is never
    carried out: it is answered "Lender cannot be empty" when the target is
    blank and "No unresolved loan found" otherwise, and the store stays as it
    was, even when exactly one open loan of that borrower and lender
    exists. *)
Theorem target_by_name_never_matches
    (env : Env) (bankData : BankData) (message : Message) (args : list string)
    (borrower : string) (amountArg targetArg : jsval) (amount : Z) :
  loansWellFormed bankData ->
  targetArguments bankData message args = Some (borrower, amountArg, targetArg) ->
  parseAmount amountArg = Some amount ->
  isLoanId bankData targetArg = false ->
  let lender := JsString.trim (JsVal.toString (JsVal.or targetArg (JString ""))) in
  let answer :=
    if String.eqb lender "" then LenderCannotBeEmpty
    else NoUnresolvedLoan borrower lender in
  repayCommand env bankData message args = returnSend env bankData answer
  /\ accrueCommand env bankData message args = returnSend env bankData answer.
Proof.
  intros Hwf Hargs Hamount Hid lender answer. subst answer.
  assert (Htarget : forall command,
             resolveTarget command bankData borrower targetArg
             = inl (if String.eqb lender "" then LenderCannotBeEmpty
                    else NoUnresolvedLoan borrower lender)).
  { intros command. unfold resolveTarget. rewrite Hid. fold lender.
    destruct (String.eqb lender ""); [reflexivity |].
    now rewrite findOpenLoans_as_called_empty. }
  unfold repayCommand, accrueCommand. rewrite Hargs, Hamount, !Htarget. now split.
Qed.

Lemma target_by_name_never_matches_witness :
  repayCommand Scenario.env (store Scenario.withLoan) Scenario.fromVani ["50"; "vixil"]
  = returnSend Scenario.env (store Scenario.withLoan) (NoUnresolvedLoan "Vani" "vixil").
Proof.
  apply (target_by_name_never_matches Scenario.env (store Scenario.withLoan)
           Scenario.fromVani ["50"; "vixil"] "Vani" (JString "50") (JString "vixil") 50);
    try reflexivity.
  apply (run_wellFormed [Scenario.say "loan" ["100"; "Vixil"; "Tuning"; "cost"]]
           Scenario.fresh []).
  intros key loan [].
Defined.

(** ** Logs only grow *)

Lemma extends_refl (A : Type) (l : list A) : extends l l.
Proof. exists []. now rewrite app_nil_r. Qed.

Lemma extends_trans (A : Type) (a b c : list A) :
  extends a b -> extends b c -> extends a c.
Proof. intros [x ->] [y ->]. exists (x ++ y). now rewrite app_assoc. Qed.

Lemma extends_set (A : Type) (o : obj (list A)) (k k' : string) (added : list A) :
  extends (orNil (Obj.get o k')) (orNil (Obj.get (Obj.set o k (orNil (Obj.get o k) ++ added)) k')).
Proof.
  destruct (String.eqb_spec k k') as [-> | Hne].
  - rewrite get_set_same. now exists added.
  - rewrite get_set_other by assumption. apply extends_refl.
Qed.

Lemma logsExtend_refl bankData : logsExtend bankData bankData.
Proof. intros key. split; apply extends_refl. Qed.

Lemma logsExtend_trans a b c : logsExtend a b -> logsExtend b c -> logsExtend a c.
Proof.
  intros H1 H2 key. destruct (H1 key), (H2 key).
  split; eapply extends_trans; eassumption.
Qed.

Lemma logsExtend_setBalance bankData name b : logsExtend bankData (setBalance bankData name b).
Proof. intros key. split; apply extends_refl. Qed.

Lemma logsExtend_setLoan bankData loanId loan : logsExtend bankData (setLoan bankData loanId loan).
Proof. intros key. split; apply extends_refl. Qed.

Lemma logsExtend_setName bankData user name :
  logsExtend bankData (setDefaultNameForUser bankData user name).
Proof. intros key. split; apply extends_refl. Qed.

Lemma logsExtend_recordTransaction env bankData name type amount actorId note :
  logsExtend bankData (recordTransaction env bankData name type amount actorId note).
Proof. intros key. split; [apply extends_set | apply extends_refl]. Qed.

Lemma logsExtend_recordLoanTransaction env bankData loanId type amount actorId note :
  logsExtend bankData (recordLoanTransaction env bankData loanId type amount actorId note).
Proof. intros key. split; [apply extends_refl | apply extends_set]. Qed.

Ltac logs_extend :=
  repeat break_match; cbn [bank returnSend justSend];
  repeat first
    [ apply logsExtend_refl
    | eapply logsExtend_trans;
      [| first [ apply logsExtend_recordTransaction
               | apply logsExtend_recordLoanTransaction
               | apply logsExtend_setBalance
               | apply logsExtend_setLoan
               | apply logsExtend_setName ] ] ].

Lemma commands_extend_logs env bankData message args :
  logsExtend bankData (bank (depositCommand env bankData message args))
  /\ logsExtend bankData (bank (withdrawCommand env bankData message args))
  /\ logsExtend bankData (bank (loanCommand env bankData message args))
  /\ logsExtend bankData (bank (repayCommand env bankData message args))
  /\ logsExtend bankData (bank (accrueCommand env bankData message args))
  /\ logsExtend bankData (bank (setNameCommand env bankData message args))
  /\ logsExtend bankData (bank (historyCommand env bankData message args))
  /\ logsExtend bankData (bank (leaderboardCommand env bankData args))
  /\ logsExtend bankData (bank (balanceCommand bankData message args)).
Proof.
  unfold depositCommand, withdrawCommand, loanCommand, repayCommand, accrueCommand,
    setNameCommand, historyCommand, leaderboardCommand, balanceCommand.
  repeat split; logs_extend.
Qed.

Lemma processCommand_extends_logs env w message primaryCommand args :
  logsExtend (store w) (store (world (processCommand env w message primaryCommand args))).
Proof.
  destruct (commands_extend_logs env (store w) message args)
    as (Hd & Hw & Hl & Hr & Ha & Hs & Hh & Hb & Hbal).
  unfold processCommand.
  repeat match goal with
         | |- context [String.eqb primaryCommand ?c] =>
             destruct (String.eqb primaryCommand c)
         end;
    try (unfold gated; destruct (busy w); [apply logsExtend_refl |];
         destruct (threw _));
    first [ assumption | apply logsExtend_refl ].
Qed.

Lemma run_extends_logs inputs : forall w evs,
  logsExtend (store w) (store (fst (fold_left step inputs (w, evs)))).
Proof.
  induction inputs as [| i r IH]; intros w evs; simpl; [apply logsExtend_refl |].
  unfold step at 2. simpl.
  assert (Hstep : logsExtend (store w)
                    (store (fst (onMessage (inEnv i) w (inMessage i) (inCommand i)
                                   (inArgs i))))).
  { unfold onMessage.
    pose proof (processCommand_extends_logs (inEnv i) w (inMessage i) (inCommand i)
                  (inArgs i)) as H.
    destruct (rejected _); exact H. }
  destruct (onMessage _ _ _ _ _) as [w' evs'].
  eapply logsExtend_trans; [exact Hstep | apply IH].
Qed.

(** X9.  Both logs are append-only: whatever messages are handled, and
    however each of them ends, the log of every account and the log of every
    loan afterwards is the log before with entries added at the end; no
    entry is ever removed, changed or reordered. *)
Theorem logs_only_grow (inputs : list Input) (w : World) (key : string) :
  let after := store (fst (run inputs w)) in
  extends (accountLog (store w) key) (accountLog after key)
  /\ extends (loanLog (store w) (JString key)) (loanLog after (JString key)).
Proof. apply (run_extends_logs inputs w [] key). Qed.

(** ** Commands that only read *)




(** ** The gate between messages *)

Lemma rejection_is_not_busy command bankData borrower targetArg r :
  resolveTarget command bankData borrower targetArg = inl r -> r <> BusyTryAgain.
Proof.
  intros H. apply resolveTarget_rejection in H.
  destruct H as [-> | [[l ->] | (l & ms & ->)]]; discriminate.
Qed.

Ltac not_busy :=
  repeat break_match; cbn [events returnSend justSend];
  intros Hin; simpl in Hin;
  repeat match goal with
         | H : _ \/ _ |- _ => destruct H
         end;
  try contradiction; try discriminate;
  match goal with
  | Hr : resolveTarget _ _ _ _ = inl _ |- _ =>
      apply rejection_is_not_busy in Hr; congruence
  end.

Lemma commands_never_answer_busy env bankData message args :
  ~ In (Sent BusyTryAgain) (events (depositCommand env bankData message args))
  /\ ~ In (Sent BusyTryAgain) (events (withdrawCommand env bankData message args))
  /\ ~ In (Sent BusyTryAgain) (events (loanCommand env bankData message args))
  /\ ~ In (Sent BusyTryAgain) (events (repayCommand env bankData message args))
  /\ ~ In (Sent BusyTryAgain) (events (accrueCommand env bankData message args))
  /\ ~ In (Sent BusyTryAgain) (events (setNameCommand env bankData message args))
  /\ ~ In (Sent BusyTryAgain) (events (historyCommand env bankData message args))
  /\ ~ In (Sent BusyTryAgain) (events (leaderboardCommand env bankData args))
  /\ ~ In (Sent BusyTryAgain) (events (balanceCommand bankData message args)).
Proof.
  unfold depositCommand, withdrawCommand, loanCommand, repayCommand, accrueCommand,
    setNameCommand, historyCommand, leaderboardCommand, balanceCommand.
  repeat split; not_busy.
Qed.

Lemma processCommand_free_gate env w message primaryCommand args :
  busy w = false ->
  let r := processCommand env w message primaryCommand args in
  busy (world r) = false /\ ~ In (Sent BusyTryAgain) (trace r).
Proof.
  intros Hfree.
  destruct (commands_never_answer_busy env (store w) message args)
    as (Hd & Hw & Hl & Hr & Ha & Hs & Hh & Hb & Hbal).
  unfold processCommand.
  repeat match goal with
         | |- context [String.eqb primaryCommand ?c] =>
             destruct (String.eqb primaryCommand c)
         end;
    cbv zeta; unfold gated, ungated; rewrite ?Hfree;
    try (destruct (threw _)); cbn [world busy trace];
    (split; [assumption || reflexivity |]);
    try assumption;
    try (intros Hin; apply in_app_or in Hin; destruct Hin as [Hin | [Hin | []]];
         [auto | discriminate Hin]);
    cbn [events returnSend justSend]; intros [H | []]; discriminate H.
Qed.

(** X11.  Handled one after the other, from a state in which the gate is
    free, no message ever finds or leaves the gate taken: after every message
    [busy] is false again, whether the command succeeded, was refused or
    threw, and the reply "Busy processing another transaction" is never
    sent. *)
Theorem gate_is_free_between_messages (inputs : list Input) (w : World) :
  busy w = false ->
  busy (fst (run inputs w)) = false
  /\ ~ In (Sent BusyTryAgain) (snd (run inputs w)).
Proof.
  unfold run. intros Hfree.
  assert (H : forall evs, ~ In (Sent BusyTryAgain) evs ->
              busy (fst (fold_left step inputs (w, evs))) = false
              /\ ~ In (Sent BusyTryAgain) (snd (fold_left step inputs (w, evs)))).
  { revert w Hfree. induction inputs as [| i r IH]; intros w Hfree evs Hevs; simpl;
      [now split |].
    destruct (processCommand_free_gate (inEnv i) w (inMessage i) (inCommand i)
                (inArgs i) Hfree) as [Hb Ht].
    destruct (step (w, evs) i) as [w' evs'] eqn:E.
    unfold step, onMessage in E. simpl in E.
    destruct (rejected _); injection E as <- <-; apply IH; try assumption;
      try reflexivity;
      intros Hin; repeat (apply in_app_or in Hin; destruct Hin as [Hin | Hin]);
      try contradiction; destruct Hin as [Hin | []]; discriminate Hin. }
  apply H. intros [].
Qed.

Lemma gate_is_free_between_messages_witness :
  busy (fst (run (Scenario.say "withdraw" ["5"; "potions"] :: Scenario.afterResolution)
               Scenario.withResolvedLoan)) = false.
Proof.
  apply (gate_is_free_between_messages _ Scenario.withResolvedLoan). reflexivity.
Defined.

(** ** Restarting on the saved snapshot *)






(** ** The wealth ranking *)









(** ** The leaderboard *)



(** ** The history of an account *)


(** ** Loan ids *)

Lemma trimEnd_noWhite (s : string) : noWhite s = true -> JsString.trimEnd s = s.
Proof.
  induction s as [| c r IH]; simpl; [reflexivity |].
  intros H. apply andb_true_iff in H. destruct H as [Hc Hr].
  rewrite (IH Hr). apply negb_true_iff in Hc. rewrite Hc. now destruct r.
Qed.

Lemma trim_noWhite (s : string) : noWhite s = true -> JsString.trim s = s.
Proof.
  intros H. unfold JsString.trim.
  assert (Hs : JsString.trimStart s = s).
  { destruct s as [| c r]; [reflexivity |]. simpl in *.
    apply andb_true_iff in H. destruct H as [Hc _].
    apply negb_true_iff in Hc. now rewrite Hc. }
  rewrite Hs. now apply trimEnd_noWhite.
Qed.

Lemma noWhite_app (a b : string) :
  noWhite (a ++ b) = noWhite a && noWhite b.
Proof.
  induction a as [| c r IH]; simpl; [reflexivity |].
  now rewrite IH, andb_assoc.
Qed.

Lemma noWhite_substring0 (n : nat) (s : string) :
  noWhite s = true -> noWhite (JsString.substring0 n s) = true.
Proof.
  unfold JsString.substring0. revert s.
  induction n as [| n IH]; intros [| c r] H; simpl in *; try reflexivity.
  apply andb_true_iff in H. destruct H as [Hc Hr]. now rewrite Hc, IH.
Qed.

(** An id of at most 64 characters without white space is a fixed point. *)
Lemma normalizeLoanId_fixed (s : string) :
  s <> "" -> noWhite s = true -> (String.length s <= 64)%nat ->
  normalizeLoanId (JString s) = Some s.
Proof.
  intros Hne Hclean Hlen. unfold normalizeLoanId. simpl.
  destruct (String.eqb_spec s "") as [| _]; [contradiction |]. simpl.
  rewrite (trim_noWhite s Hclean).
  destruct s as [| c r]; [contradiction |]. simpl String.length. cbn [Nat.eqb].
  now rewrite substring0_short.
Qed.

(** X16.  [normalizeLoanId] gives [null] exactly for a missing or empty value
    and for one that is blank once converted to a string; otherwise it gives
    the trimmed string cut to 64 characters, which is never empty, never
    longer than 64 and never starts with white space.  An id of at most 64
    characters without white space is left as it is. *)
Theorem normalizeLoanId_result (id : jsval) :
  (normalizeLoanId id = None <->
     JsVal.truthy id = false \/ JsString.trim (JsVal.toString id) = "")
  /\ (forall s,
        normalizeLoanId id = Some s ->
        s = JsString.substring0 64 (JsString.trim (JsVal.toString id))
        /\ (String.length s <= 64)%nat
        /\ exists c r, s = String c r /\ JsString.is_white c = false)
  /\ (forall s,
        id = JString s -> s <> "" -> noWhite s = true -> (String.length s <= 64)%nat ->
        normalizeLoanId id = Some s).
Proof.
  unfold normalizeLoanId. split; [| split].
  - destruct (JsVal.truthy id); simpl.
    + destruct (JsString.trim (JsVal.toString id)) as [| c r]; simpl.
      * split; auto.
      * split; [discriminate | intros [H | H]; discriminate].
    + split; auto.
  - intros s. destruct (JsVal.truthy id); simpl; [| discriminate].
    destruct (JsString.trim (JsVal.toString id)) as [| c r] eqn:E; simpl;
      [discriminate |].
    intros [= <-]. split; [reflexivity |]. split.
    + apply (substring0_length 64 (String c r)).
    + exists c, (JsString.substring0 63 r). split; [reflexivity |].
      now apply trim_head in E.
  - intros s -> Hne Hclean Hlen. fold (normalizeLoanId (JString s)).
    now apply normalizeLoanId_fixed.
Qed.

Lemma trimEnd_cons (c c' : ascii) (r r' : string) :
  JsString.trimEnd r = String c' r' ->
  JsString.trimEnd (String c r) = String c (String c' r').
Proof. intros H. simpl. now rewrite H. Qed.

(** The base of a generated id keeps its prefix when trimmed. *)
Lemma trim_loan_prefix (rest : string) :
  exists rest', JsString.trim ("loan_" ++ rest) = ("loan_" ++ rest')%string.
Proof.
  unfold JsString.trim.
  change (JsString.trimStart ("loan_" ++ rest)) with ("loan_" ++ rest)%string.
  destruct (trimEnd_keeps_head "_" rest eq_refl) as [r0 H0].
  exists r0. change ("loan_" ++ rest)%string
    with (String "l" (String "o" (String "a" (String "n" (String "_" rest))))).
  now rewrite (trimEnd_cons "l" "o" _ _
                 (trimEnd_cons "o" "a" _ _
                    (trimEnd_cons "a" "n" _ _ (trimEnd_cons "n" "_" _ _ H0)))).
Qed.

(** X17.  A generated loan id always starts with [loan_] and has at most 64
    characters; the fallback id built from the clock alone is never used.
    When the two pieces drawn from the clock and the random source contain no
    white space, the id is the text [loan_<clock>_<random>] cut to 64
    characters, and it is an id that [normalizeLoanId] leaves as it is, so
    the id can be handed back as a target. *)
Theorem generateLoanId_shape (env : Env) :
  let base := ("loan_" ++ nowBase36 env ++ "_" ++ randomBase36 env)%string in
  normalizeLoanId (JString base) = Some (generateLoanId env)
  /\ (exists rest, generateLoanId env = ("loan_" ++ rest)%string)
  /\ (String.length (generateLoanId env) <= 64)%nat
  /\ (noWhite (nowBase36 env) = true -> noWhite (randomBase36 env) = true ->
        generateLoanId env = JsString.substring0 64 base
        /\ normalizeLoanId (JString (generateLoanId env)) = Some (generateLoanId env)).
Proof.
  intros base.
  destruct (trim_loan_prefix (nowBase36 env ++ "_" ++ randomBase36 env)) as [rest Hrest].
  fold base in Hrest.
  assert (Hnorm : normalizeLoanId (JString base)
                  = Some (JsString.substring0 64 (JsString.trim base))).
  { unfold normalizeLoanId. cbn [JsVal.truthy JsVal.toString].
    change (String.eqb base "") with false. cbn [negb]. now rewrite Hrest. }
  assert (Hgen : generateLoanId env = JsString.substring0 64 (JsString.trim base)).
  { unfold generateLoanId. fold base. now rewrite Hnorm. }
  split; [now rewrite Hgen |]. split; [| split].
  - rewrite Hgen, Hrest. now exists (JsString.substring0 59 rest).
  - rewrite Hgen. apply substring0_length.
  - intros Hnow Hrandom.
    assert (Hclean : noWhite base = true).
    { subst base. rewrite !noWhite_app, Hnow, Hrandom. reflexivity. }
    rewrite Hgen, (trim_noWhite base Hclean). split; [reflexivity |].
    apply normalizeLoanId_fixed.
    + change (JsString.substring0 64 base)
        with (String "l" (JsString.substring0 63
                            ("oan_" ++ nowBase36 env ++ "_" ++ randomBase36 env))).
      discriminate.
    + now apply noWhite_substring0.
    + apply substring0_length.
Qed.

(** ** Comparing names *)

Lemma or_empty_string (s : string) :
  JsVal.toString (JsVal.or (JString s) (JString "")) = s.
Proof.
  unfold JsVal.or. simpl. destruct (String.eqb_spec s "") as [-> | _]; reflexivity.
Qed.

Lemma eqName_strings (a b : string) :
  eqName (JString a) (JString b)
  = String.eqb (JsString.toLowerCase (JsString.trim a))
               (JsString.toLowerCase (JsString.trim b)).
Proof. unfold eqName. now rewrite !or_empty_string. Qed.

(** X18.  [eqName] is an equivalence: every value equals itself, the order of
    the two arguments does not matter, and two values equal to a third are
    equal.  It ignores the case of letters and the white space around a
    name; and a missing or empty value counts as the empty name. *)
Theorem eqName_is_an_equivalence :
  (forall a, eqName a a = true)
  /\ (forall a b, eqName a b = eqName b a)
  /\ (forall a b c, eqName a b = true -> eqName b c = true -> eqName a c = true)
  /\ (forall s, eqName (JString s) (JString (JsString.toLowerCase s)) = true)
  /\ (forall s, eqName (JString s) (JString (JsString.trim s)) = true)
  /\ (forall a b, JsVal.truthy a = false -> eqName a b = eqName (JString "") b).
Proof.
  repeat split.
  - intros a. unfold eqName. apply String.eqb_refl.
  - intros a b. unfold eqName. apply String.eqb_sym.
  - intros a b c. unfold eqName. rewrite !String.eqb_eq. congruence.
  - intros s. rewrite eqName_strings, trim_toLowerCase, toLowerCase_idempotent.
    apply String.eqb_refl.
  - intros s. rewrite eqName_strings, trim_idempotent. apply String.eqb_refl.
  - intros a b Ha. unfold eqName, JsVal.or. rewrite Ha. reflexivity.
Qed.

(** ** The loan listings *)

Lemma filter_none (A : Type) (f : A -> bool) (l : list A) :
  (forall x, In x l -> f x = false) -> filter f l = [].
Proof.
  induction l as [| x r IH]; intros H; simpl; [reflexivity |].
  rewrite (H x) by now left. apply IH. intros y Hy. apply H. now right.
Qed.


Lemma unresolvedEntries_spec bankData key loan :
  In (key, loan) (unresolvedEntries bankData) <->
  In (key, loan) (Obj.entries (loans bankData)) /\ Loan.status loan <> "resolved".
Proof.
  unfold unresolvedEntries. rewrite filter_In. simpl.
  destruct (String.eqb_spec (Loan.status loan) "resolved"); simpl;
    split; intros [H1 H2]; split; auto; try discriminate; contradiction.
Qed.


(** X20.  [debtors] asked about a user (no argument, or a mention) compares
    [loan.lenderId] with the user's id; no loan record has such a property,
    so it always answers "No unresolved loans where ... is the lender",
    whatever is stored.  Asked about a name written out, it lists exactly the
    stored loans that are not resolved, whose lender equals the name up to
    case and surrounding space, and whose balance is above 0. *)
Theorem debtors_lists_by_name_only
    (bankData : BankData) (message : Message) (args : list string) :
  (forall targetUser targetName,
     listingTarget bankData message args = (Some targetUser, targetName) ->
     debtorsCommand bankData message args = NoUnresolvedLoans targetName)
  /\ (forall targetName,
        listingTarget bankData message args = (None, targetName) ->
        forall line,
          In line (debtorsOpenLoans bankData None targetName) <->
          exists loan,
            In (lineLoanId line, loan) (Obj.entries (loans bankData))
            /\ Loan.status loan <> "resolved"
            /\ eqName (JString (Loan.lenderName loan)) (JString targetName) = true
            /\ 0 < Loan.balance loan
            /\ line = mkLoanLine (lineLoanId line)
                        (orString (Loan.borrowerName loan) "Unknown")
                        (Loan.balance loan)).
Proof.
  split.
  - intros targetUser targetName Htarget. unfold debtorsCommand. rewrite Htarget.
    unfold debtorsOpenLoans.
    assert (H : filter
                  (fun e : string * Loan.t =>
                     strictEq (Loan.prop (snd e) "lenderId")
                              (JString (userId targetUser)))
                  (unresolvedEntries bankData) = []).
    { apply filter_none. intros e _. reflexivity. }
    rewrite H. reflexivity.
  - intros targetName _ line. unfold debtorsOpenLoans. split.
    + intros Hin.
      apply (Permutation_in _ (sortDesc_perm _ lineBalance _)) in Hin.
      apply filter_In in Hin. destruct Hin as [Hin Hpos].
      apply in_map_iff in Hin. destruct Hin as [[key loan] [<- Hin]].
      apply filter_In in Hin. destruct Hin as [Hin Hname].
      apply unresolvedEntries_spec in Hin. destruct Hin as [Hin Hopen].
      cbn [fst snd lineLoanId lineBalance] in *. rewrite orZero_some in *.
      exists loan. repeat split; try assumption. now apply Z.ltb_lt.
    + intros (loan & Hin & Hopen & Hname & Hpos & ->).
      apply (Permutation_in _ (Permutation_sym (sortDesc_perm _ lineBalance _))).
      apply filter_In. cbn [lineBalance]. split; [| now apply Z.ltb_lt].
      apply in_map_iff. exists (lineLoanId line, loan). cbn [fst snd].
      rewrite orZero_some. split; [reflexivity |].
      apply filter_In. split; [| exact Hname].
      apply unresolvedEntries_spec. now split.
Qed.

(** ** Default names *)

Lemma firstWord_length (s : string) :
  (String.length (firstWord s) <= String.length s)%nat.
Proof.
  induction s as [| c r IH]; simpl; [lia |].
  destruct (Ascii.eqb c " "); simpl; lia.
Qed.

Lemma noSpace_firstWord (s : string) : noSpace (firstWord s) = true.
Proof.
  induction s as [| c r IH]; simpl; [reflexivity |].
  destruct (Ascii.eqb c " ") eqn:E; simpl; [reflexivity |]. now rewrite E.
Qed.

Lemma noSpace_trimStart (s : string) :
  noSpace s = true -> noSpace (JsString.trimStart s) = true.
Proof.
  induction s as [| c r IH]; simpl; [reflexivity |].
  intros H. destruct (JsString.is_white c); [| exact H].
  apply andb_true_iff in H. now apply IH.
Qed.

Lemma noSpace_trimEnd (s : string) :
  noSpace s = true -> noSpace (JsString.trimEnd s) = true.
Proof.
  induction s as [| c r IH]; simpl; [reflexivity |].
  intros H. apply andb_true_iff in H. destruct H as [Hc Hr].
  specialize (IH Hr).
  destruct (JsString.trimEnd r); [destruct (JsString.is_white c) |]; simpl in *;
    rewrite ?Hc; auto.
Qed.

Lemma noSpace_trim (s : string) : noSpace s = true -> noSpace (JsString.trim s) = true.
Proof. intros H. unfold JsString.trim. now apply noSpace_trimEnd, noSpace_trimStart. Qed.

Lemma not_white_not_space (c : ascii) :
  JsString.is_white c = false -> Ascii.eqb c " " = false.
Proof. destruct (Ascii.eqb_spec c " ") as [-> | _]; [discriminate | reflexivity]. Qed.

(** The first word of a trimmed name that is not empty is not blank. *)
Lemma firstWord_of_trimmed (s : string) :
  JsString.trim s <> "" -> JsString.trim (firstWord (JsString.trim s)) <> "".
Proof.
  intros Hne. destruct (JsString.trim s) as [| c r] eqn:E; [contradiction |].
  pose proof (trim_head _ _ _ E) as W.
  simpl. rewrite (not_white_not_space c W).
  unfold JsString.trim. rewrite (trimStart_fixed c _ W).
  destruct (trimEnd_keeps_head c (firstWord r) W) as [r' ->]. discriminate.
Qed.

Lemma getDefaultName_after_set bankData user name u :
  getDefaultNameForUser (setDefaultNameForUser bankData user name) u
  = if String.eqb (userId user) (userId u)
    then orString (JsString.trim (JsString.substring0 32 (firstWord name))) (username u)
    else getDefaultNameForUser bankData u.
Proof.
  unfold getDefaultNameForUser, setDefaultNameForUser. cbn [profiles].
  destruct (String.eqb_spec (userId user) (userId u)) as [E | Hne].
  - rewrite E, get_set_same. reflexivity.
  - now rewrite get_set_other.
Qed.

(** X21.  [setname] refuses a name that is missing, blank or longer than 32
    characters and then changes and saves nothing.  Otherwise it stores, for
    the author only, the first word of the name (what comes before the first
    space), trimmed: a name that is not empty, has at most 32 characters and
    contains no space; this is the author's default account name from then
    on.  The reply quotes the whole name as typed, the snapshot is saved at
    once, and balances, loans and both logs are untouched. *)
Theorem setname_stores_first_word
    (env : Env) (bankData : BankData) (message : Message) (args : list string) :
  let name := JsString.trim (JsString.join " " args) in
  let stored := JsString.trim (firstWord name) in
  let out := setNameCommand env bankData message args in
  (args = [] -> out = returnSend env bankData (Usage "setname"))
  /\ (args <> [] -> name = "" -> out = returnSend env bankData NameEmpty)
  /\ (args <> [] -> (32 < String.length name)%nat ->
        out = returnSend env bankData NameTooLong)
  /\ (args <> [] -> name <> "" -> (String.length name <= 32)%nat ->
        events out = [Saved (saveData (bank out)); Sent (NameSet name)]
        /\ threw out = false
        /\ getDefaultNameForUser (bank out) (author message) = stored
        /\ stored <> ""
        /\ (String.length stored <= 32)%nat
        /\ noSpace stored = true
        /\ (forall u, userId u <> userId (author message) ->
              getDefaultNameForUser (bank out) u = getDefaultNameForUser bankData u)
        /\ balances (bank out) = balances bankData
        /\ transactions (bank out) = transactions bankData
        /\ loans (bank out) = loans bankData
        /\ loanTransactions (bank out) = loanTransactions bankData).
Proof.
  intros name stored out. subst out. unfold setNameCommand. fold name.
  split; [| split; [| split]].
  - intros ->. reflexivity.
  - intros Hargs Hname. destruct args; [contradiction |]. cbn [List.length Nat.eqb].
    now rewrite Hname.
  - intros Hargs Hlong. destruct args; [contradiction |]. cbn [List.length Nat.eqb].
    destruct (String.length name =? 0)%nat eqn:E0.
    { apply Nat.eqb_eq in E0. lia. }
    apply Nat.ltb_lt in Hlong. now rewrite Hlong.
  - intros Hargs Hname Hshort. destruct args as [| a rest]; [contradiction |].
    cbn [List.length Nat.eqb].
    destruct (String.length name =? 0)%nat eqn:E0.
    { apply Nat.eqb_eq in E0. destruct name; [contradiction | discriminate]. }
    destruct (32 <? String.length name)%nat eqn:E32.
    { apply Nat.ltb_lt in E32. lia. }
    cbn [events bank threw].
    assert (Hcut : JsString.substring0 32 (firstWord name) = firstWord name).
    { apply substring0_short. pose proof (firstWord_length name). lia. }
    assert (Hstored : stored <> "").
    { subst stored name. now apply firstWord_of_trimmed. }
    repeat split; try assumption.
    + rewrite getDefaultName_after_set, String.eqb_refl, Hcut. fold stored.
      unfold orString. destruct (String.eqb_spec stored ""); [contradiction | reflexivity].
    + subst stored. pose proof (trim_length (firstWord name)).
      pose proof (firstWord_length name). lia.
    + subst stored. apply noSpace_trim, noSpace_firstWord.
    + intros u Hu. rewrite getDefaultName_after_set.
      destruct (String.eqb_spec (userId (author message)) (userId u)); congruence.
Qed.

(** ** The debt ranking *)

Section ObjKeys.
Context {V : Type}.



End ObjKeys.



(** ** A reply that cannot be sent *)




(** ** What the logs hold *)

Lemma wellTyped_recordTransaction env bankData name type amount actorId note :
  logsWellTyped bankData ->
  ledgerEntry (Tx.mk (isoNow env) type amount actorId note) ->
  logsWellTyped (recordTransaction env bankData name type amount actorId note).
Proof.
  intros [Ha Hl] Hentry. split; [| exact Hl].
  intros key log Hin. simpl in Hin. apply in_set in Hin.
  destruct Hin as [[= -> ->] | Hin]; [| now apply (Ha key)].
  apply Forall_app. split; [| constructor; [exact Hentry | constructor]].
  destruct (Obj.get (transactions bankData) name) as [old |] eqn:E; [| constructor].
  apply get_in in E. now apply (Ha name).
Qed.

Lemma wellTyped_recordLoanTransaction env bankData loanId type amount actorId note :
  logsWellTyped bankData ->
  loanEntry (Tx.mk (isoNow env) type amount actorId note) ->
  logsWellTyped (recordLoanTransaction env bankData loanId type amount actorId note).
Proof.
  intros [Ha Hl] Hentry. split; [exact Ha |].
  intros key log Hin. simpl in Hin. apply in_set in Hin.
  destruct Hin as [[= -> ->] | Hin]; [| now apply (Hl key)].
  apply Forall_app. split; [| constructor; [exact Hentry | constructor]].
  destruct (Obj.get (loanTransactions bankData) (JsVal.toString loanId)) as [old |] eqn:E;
    [| constructor].
  apply get_in in E. now apply (Hl (JsVal.toString loanId)).
Qed.

Lemma wellTyped_frame before after :
  transactions after = transactions before ->
  loanTransactions after = loanTransactions before ->
  logsWellTyped before -> logsWellTyped after.
Proof. intros Ht Hl [H1 H2]. unfold logsWellTyped. rewrite Ht, Hl. now split. Qed.

Ltac well_typed :=
  repeat break_match; cbn [bank returnSend justSend]; try assumption;
  repeat first
    [ assumption
    | apply wellTyped_recordTransaction
    | apply wellTyped_recordLoanTransaction
    | (eapply wellTyped_frame; [reflexivity | reflexivity |]) ].

Lemma commands_keep_logs_typed env bankData message args :
  logsWellTyped bankData ->
  logsWellTyped (bank (depositCommand env bankData message args))
  /\ logsWellTyped (bank (withdrawCommand env bankData message args))
  /\ logsWellTyped (bank (loanCommand env bankData message args))
  /\ logsWellTyped (bank (repayCommand env bankData message args))
  /\ logsWellTyped (bank (accrueCommand env bankData message args))
  /\ logsWellTyped (bank (setNameCommand env bankData message args))
  /\ logsWellTyped (bank (historyCommand env bankData message args))
  /\ logsWellTyped (bank (leaderboardCommand env bankData args))
  /\ logsWellTyped (bank (balanceCommand bankData message args)).
Proof.
  intros Hwt.
  unfold depositCommand, withdrawCommand, loanCommand, repayCommand, accrueCommand,
    setNameCommand, historyCommand, leaderboardCommand, balanceCommand.
  repeat split; well_typed;
    try match goal with
        | H : parseAmount _ = Some _ |- _ => apply parseAmount_nonneg in H
        end;
    unfold ledgerEntry, loanEntry; cbn [Tx.type Tx.amount Tx.note]; auto 6.
Qed.

Lemma processCommand_keeps_logs_typed env w message primaryCommand args :
  logsWellTyped (store w) ->
  logsWellTyped (store (world (processCommand env w message primaryCommand args))).
Proof.
  intros Hwt.
  destruct (commands_keep_logs_typed env (store w) message args Hwt)
    as (Hd & Hw & Hl & Hr & Ha & Hs & Hh & Hb & Hbal).
  unfold processCommand.
  repeat match goal with
         | |- context [String.eqb primaryCommand ?c] =>
             destruct (String.eqb primaryCommand c)
         end;
    try (unfold gated; destruct (busy w); [exact Hwt |]; destruct (threw _));
    assumption.
Qed.

(** X24.  From the empty store on, whatever messages are handled, every
    entry of an account log has type ["deposit"] or ["withdraw"] and an
    amount that is not negative, and every entry of a loan log has type
    ["loan"], ["repay"] or ["accrue"] with an amount that is not negative, or
    is a ["resolve"] entry of amount 0. *)
Theorem logs_stay_well_typed (inputs : list Input) (w : World) :
  logsWellTyped (store w) ->
  logsWellTyped (store (fst (run inputs w))).
Proof.
  unfold run. generalize (@nil Event) as evs. revert w.
  induction inputs as [| i r IH]; intros w evs Hwt; simpl; [exact Hwt |].
  destruct (step (w, evs) i) as [w' evs'] eqn:E.
  apply IH. unfold step, onMessage in E. simpl in E.
  pose proof (processCommand_keeps_logs_typed (inEnv i) w (inMessage i) (inCommand i)
                (inArgs i) Hwt) as H.
  destruct (rejected _); injection E as <- <-; exact H.
Qed.

Lemma logs_stay_well_typed_witness :
  logsWellTyped
    (store (fst (run (Scenario.say "deposit" ["0.5"; "tip"]
                      :: Scenario.say "loan" ["100"; "Vixil"; "Tuning"; "cost"]
                      :: Scenario.say "repay" ["100"; Scenario.loanId]
                      :: Scenario.afterResolution)
                   Scenario.fresh))).
Proof.
  apply (logs_stay_well_typed _ Scenario.fresh).
  split; intros key log [].
Defined.

(** ** How a loan gets resolved *)








